(** * fmodel-ts: state-stored aggregates

    A shallow embedding of [src/lib/application/statestored-aggregate.ts]:
    the state computation ([StateComputation]), the saga-driven cascade
    ([StateOrchestratingComputation]) and the four aggregates that bind a
    computation to a state repository.

    The development has two layers.

    - The functional core: decision and routing units are total functions, as
      their TypeScript types say.  [computeNewState] is a function on states.
    - The run-time layer (module [Rt]): every collaborator call may throw,
      repositories own an abstract store, and every call is written to a log,
      so that statements about failures and about the calls made by [handle]
      can be expressed.

    Both layers take a decision or routing unit as functions that do not
    read [this].  Module [Js] adds the receiver of each call, for units
    whose members are methods: [decide] and [react] are called as methods,
    [evolve] is handed to [reduce] and called with [this] undefined. *)

From Stdlib Require Import List ZArith String Bool Lia.
Import ListNotations.

Set Implicit Arguments.

(** ** The contracts of [../domain/decider] and [../domain/saga] *)

(** [IDecider<C, S, E>]: [decide(c, s): readonly E[]], [evolve(s, e): S]
    and the constant [initialState]. *)
Module IDecider.
Record t (C S E : Type) : Type := {
  decide : C -> S -> list E;
  evolve : S -> E -> S;
  initialState : S
}.
End IDecider.

(** [ISaga<AR, A>]: [react(ar): readonly A[]]. *)
Module ISaga.
Record t (AR A : Type) : Type := {
  react : AR -> list A
}.
End ISaga.

(** ** The array methods the source calls *)

Module Array.

(** [arr.reduce(callbackfn, initialValue)]: the callback receives the
    accumulator, the element, its index and the array; with an initial
    value the loop starts at index 0 and an empty array yields the initial
    value without any call. *)
Fixpoint reduce_from {A B : Type} (callbackfn : B -> A -> nat -> list A -> B)
    (arr : list A) (k : nat) (rest : list A) (accumulator : B) : B :=
  match rest with
  | [] => accumulator
  | x :: rest' =>
      reduce_from callbackfn arr (S k) rest' (callbackfn accumulator x k arr)
  end.

Definition reduce {A B : Type} (callbackfn : B -> A -> nat -> list A -> B)
    (arr : list A) (initialValue : B) : B :=
  reduce_from callbackfn arr 0 arr initialValue.

(** [arr.flatMap(callback)]: the callback's arrays, concatenated in
    element order (one level of flattening). *)
Fixpoint flatMap {A B : Type} (callback : A -> list B) (arr : list A)
    : list B :=
  match arr with
  | [] => []
  | x :: arr' => callback x ++ flatMap callback arr'
  end.

(** [arr.forEach(c => (x = body(x, c)))] where [x] is a local variable of
    the enclosing function and [body] may fail to return: the variable is
    threaded through the iterations, and the loop stops at the first
    iteration that does not return. *)
Fixpoint forEach {A X : Type} (arr : list A) (body : X -> A -> option X)
    (x : X) : option X :=
  match arr with
  | [] => Some x
  | c :: arr' =>
      match body x c with
      | Some x' => forEach arr' body x'
      | None => None
      end
  end.

End Array.

(** A two-parameter function passed where [reduce] expects its callback:
    the index and the array are passed and ignored.  The function is one
    that does not read [this]; module [Js] has the call with its
    receiver. *)
Definition as_reducer {A B : Type} (f : B -> A -> B)
    : B -> A -> nat -> list A -> B :=
  fun acc x _ _ => f acc x.

(** ** [StateComputation] *)

Module StateComputation.
Section Class.
Context {C S E : Type}.

(** The object: the [decider] constructor property and the [initialState]
    field. *)
Record t : Type := {
  decider : IDecider.t C S E;
  initialState : S
}.

(** [constructor(decider) { this.initialState = decider.initialState }] *)
Definition new (decider : IDecider.t C S E) : t :=
  {| decider := decider;
     initialState := decider.(IDecider.initialState) |}.

Definition decide (this : t) (c : C) (s : S) : list E :=
  this.(decider).(IDecider.decide) c s.

Definition evolve (this : t) (s : S) (e : E) : S :=
  this.(decider).(IDecider.evolve) s e.

(** [computeNewState(state, command)] *)
Definition computeNewState (this : t) (state : S) (command : C) : S :=
  let events := this.(decider).(IDecider.decide) command state in
  Array.reduce (as_reducer this.(decider).(IDecider.evolve)) events state.
End Class.
Arguments t : clear implicits.
End StateComputation.

(** ** [StateOrchestratingComputation] *)

Module StateOrchestratingComputation.
Section Class.
Context {C S E : Type}.

(** [extends StateComputation], plus the [saga] constructor property. *)
Record t : Type := {
  super : StateComputation.t C S E;
  saga : ISaga.t E C
}.

(** [constructor(decider, saga) { super(decider) }] *)
Definition new (decider : IDecider.t C S E) (saga : ISaga.t E C) : t :=
  {| super := StateComputation.new decider; saga := saga |}.

Definition decider (this : t) : IDecider.t C S E :=
  this.(super).(StateComputation.decider).

Definition initialState (this : t) : S :=
  this.(super).(StateComputation.initialState).

Definition decide (this : t) (c : C) (s : S) : list E :=
  StateComputation.decide this.(super) c s.

Definition evolve (this : t) (s : S) (e : E) : S :=
  StateComputation.evolve this.(super) s e.

Definition react (this : t) (ar : E) : list C :=
  this.(saga).(ISaga.react) ar.

(** The overriding [computeNewState(state, command)].  The recursion of
    the source is unbounded; [fuel] bounds the depth of nested calls and
    [None] means the bound was reached. *)
Fixpoint computeNewState (fuel : nat) (this : t) (state : S)
    (command : C) : option S :=
  match fuel with
  | O => None
  | Datatypes.S fuel' =>
      let events := (decider this).(IDecider.decide) command state in
      let newState :=
        Array.reduce (as_reducer (decider this).(IDecider.evolve)) events state in
      Array.forEach
        (Array.flatMap (fun it => this.(saga).(ISaga.react) it) events)
        (fun newState c => computeNewState fuel' this newState c)
        newState
  end.
End Class.
Arguments t : clear implicits.
End StateOrchestratingComputation.

(** ** ECMAScript [ToBoolean]

    [x ? a : b] tests the truthiness of [x].  For a value of type [S | null]
    the value [null] is falsy and a present value is tested by the
    [ToBoolean] of its own type. *)

Class ToBoolean (S : Type) : Type := toBoolean : S -> bool.

(** Integer-valued numbers: only [0] is falsy. *)
#[export] Instance ToBoolean_number : ToBoolean Z :=
  fun n => negb (Z.eqb n 0).

(** Strings: only the empty string is falsy. *)
#[export] Instance ToBoolean_string : ToBoolean string :=
  fun s => match s with EmptyString => false | String _ _ => true end.

#[export] Instance ToBoolean_boolean : ToBoolean bool :=
  fun b => b.

(** [S | null], with [null] as [None]. *)
#[export] Instance ToBoolean_nullable {S : Type} `{ToBoolean S}
    : ToBoolean (option S) :=
  fun x => match x with Some s => toBoolean s | None => false end.

(** [currentState ? currentState : other] *)
Definition conditional {S : Type} `{ToBoolean S} (currentState : option S)
    (other : S) : S :=
  match currentState with
  | Some s => if toBoolean currentState then s else other
  | None => other
  end.

(** ** The run-time layer *)

Module Rt.

(** How a call to a collaborator completes: it returns a value or it
    throws (for a promise: it is fulfilled or rejected). *)
Inductive completion (Err A : Type) : Type :=
| Return (a : A)
| Throw (err : Err).
Arguments Return {Err A} a.
Arguments Throw {Err A} err.

(** The collaborators' contracts, with calls that may throw.  A repository
    owns a store of an abstract type [R], which its calls read and
    update. *)
Module IDecider.
Record t (Err C S E : Type) : Type := {
  decide : C -> S -> completion Err (list E);
  evolve : S -> E -> completion Err S;
  initialState : S
}.
End IDecider.

Module ISaga.
Record t (Err AR A : Type) : Type := {
  react : AR -> completion Err (list A)
}.
End ISaga.

Module StateRepository.
Record t (Err R C S : Type) : Type := {
  fetchState : C -> R -> completion Err (option S) * R;
  save : S -> R -> completion Err S * R
}.
End StateRepository.

Module StateLockingRepository.
Record t (Err R C S V : Type) : Type := {
  fetchState : C -> R -> completion Err (option S * option V) * R;
  save : S -> option V -> R -> completion Err (S * V) * R
}.
End StateLockingRepository.

(** The calls that the code makes to its collaborators.  [X] is the type of
    what [save] receives besides the state: nothing ([unit]) for a
    [StateRepository], the version ([option V]) for a
    [StateLockingRepository]. *)
Inductive Call (C S E X : Type) : Type :=
| DecideCall (c : C) (s : S)
| EvolveCall (s : S) (e : E)
| ReactCall (e : E)
| FetchStateCall (c : C)
| SaveCall (s : S) (x : X).
Arguments DecideCall {C S E X} c s.
Arguments EvolveCall {C S E X} s e.
Arguments ReactCall {C S E X} e.
Arguments FetchStateCall {C S E X} c.
Arguments SaveCall {C S E X} s x.

(** A log entry: the call and, when it threw, what it threw. *)
Record Entry (Err C S E X : Type) : Type := {
  call : Call C S E X;
  failure : option Err
}.

Record World (Err R C S E X : Type) : Type := {
  store : R;
  log : list (Entry Err C S E X)
}.

(** How a computation of the code ends: it returns, it throws, or the
    bound on the depth of the recursion was reached. *)
Inductive outcome (Err A : Type) : Type :=
| Returned (a : A)
| Thrown (err : Err)
| OutOfFuel.
Arguments Returned {Err A} a.
Arguments Thrown {Err A} err.
Arguments OutOfFuel {Err A}.

Section Monad.
Context {Err R C S E X : Type}.

Definition M (A : Type) : Type :=
  World Err R C S E X -> outcome Err A * World Err R C S E X.

Definition ret {A : Type} (a : A) : M A := fun w => (Returned a, w).

Definition bind {A B : Type} (m : M A) (k : A -> M B) : M B :=
  fun w =>
    match m w with
    | (Returned a, w') => k a w'
    | (Thrown err, w') => (Thrown err, w')
    | (OutOfFuel, w') => (OutOfFuel, w')
    end.

Definition outOfFuel {A : Type} : M A := fun w => (OutOfFuel, w).

Definition record (c : Call C S E X) (f : option Err)
    (w : World Err R C S E X) : World Err R C S E X :=
  {| store := w.(store);
     log := w.(log) ++ [{| call := c; failure := f |}] |}.

(** A call to a decision or routing unit. *)
Definition invoke {A : Type} (c : Call C S E X) (r : completion Err A)
    : M A :=
  fun w =>
    match r with
    | Return a => (Returned a, record c None w)
    | Throw err => (Thrown err, record c (Some err) w)
    end.

(** An awaited call to a repository. *)
Definition await {A : Type} (c : Call C S E X)
    (f : R -> completion Err A * R) : M A :=
  fun w =>
    let (r, st) := f w.(store) in
    invoke c r {| store := st; log := w.(log) |}.
End Monad.

Declare Scope rt_scope.
Delimit Scope rt_scope with rt.
Notation "x <- m ;; k" := (bind m (fun x => k))
  (at level 61, m at next level, right associativity) : rt_scope.
Notation "' pat <- m ;; k" := (bind m (fun x => match x with pat => k end))
  (at level 61, pat pattern, m at next level, right associativity)
  : rt_scope.
Local Open Scope rt_scope.

(** The array methods, with callbacks that may throw. *)
Module Array.
Section Methods.
Context {Err R C S E X : Type}.
Abbreviation M := (@M Err R C S E X).

Fixpoint reduce_from {A B : Type}
    (callbackfn : B -> A -> nat -> list A -> M B)
    (arr : list A) (k : nat) (rest : list A) (accumulator : B) : M B :=
  match rest with
  | [] => ret accumulator
  | x :: rest' =>
      accumulator' <- callbackfn accumulator x k arr ;;
      reduce_from callbackfn arr (Datatypes.S k) rest' accumulator'
  end.

Definition reduce {A B : Type}
    (callbackfn : B -> A -> nat -> list A -> M B)
    (arr : list A) (initialValue : B) : M B :=
  reduce_from callbackfn arr 0 arr initialValue.

(** The callback runs on every element, in order, before anything is
    done with the result. *)
Fixpoint flatMap {A B : Type} (callback : A -> M (list B))
    (arr : list A) : M (list B) :=
  match arr with
  | [] => ret []
  | x :: arr' =>
      ys <- callback x ;;
      zs <- flatMap callback arr' ;;
      ret (ys ++ zs)
  end.

Fixpoint forEach {A Y : Type} (arr : list A) (body : Y -> A -> M Y)
    (y : Y) : M Y :=
  match arr with
  | [] => ret y
  | c :: arr' =>
      y' <- body y c ;;
      forEach arr' body y'
  end.
End Methods.
End Array.

Definition as_reducer {Err R C S E X A B : Type}
    (f : B -> A -> @M Err R C S E X B)
    : B -> A -> nat -> list A -> @M Err R C S E X B :=
  fun acc x _ _ => f acc x.

(** The calls to the decision and routing units, as the code makes them. *)
Section Calls.
Context {Err R C S E X : Type}.
Abbreviation M := (@M Err R C S E X).

Definition call_decide (decider : IDecider.t Err C S E) (c : C) (s : S)
    : M (list E) :=
  invoke (DecideCall c s) (decider.(IDecider.decide) c s).

Definition call_evolve (decider : IDecider.t Err C S E) (s : S) (e : E)
    : M S :=
  invoke (EvolveCall s e) (decider.(IDecider.evolve) s e).

Definition call_react (saga : ISaga.t Err E C) (e : E) : M (list C) :=
  invoke (ReactCall e) (saga.(ISaga.react) e).
End Calls.

(** *** [StateComputation] *)
Module StateComputation.
Section Class.
Context {Err C S E : Type}.

Record t : Type := {
  decider : IDecider.t Err C S E;
  initialState : S
}.

(** [constructor(decider) { this.initialState = decider.initialState }] *)
Definition new (decider : IDecider.t Err C S E) : t :=
  {| decider := decider;
     initialState := decider.(IDecider.initialState) |}.

(** [decide(c, s) { return this.decider.decide(c, s) }] *)
Definition decide (this : t) (c : C) (s : S)
    : completion Err (list E) :=
  this.(decider).(IDecider.decide) c s.

(** [evolve(s, e) { return this.decider.evolve(s, e) }] *)
Definition evolve (this : t) (s : S) (e : E) : completion Err S :=
  this.(decider).(IDecider.evolve) s e.

(** [computeNewState(state, command)] *)
Definition computeNewState {R X : Type} (this : t) (state : S)
    (command : C) : @M Err R C S E X S :=
  events <- call_decide this.(decider) command state ;;
  Array.reduce (as_reducer (call_evolve this.(decider))) events state.
End Class.
Arguments t : clear implicits.
End StateComputation.

(** *** [StateOrchestratingComputation] *)
Module StateOrchestratingComputation.
Section Class.
Context {Err C S E : Type}.

Record t : Type := {
  super : StateComputation.t Err C S E;
  saga : ISaga.t Err E C
}.

(** [constructor(decider, saga) { super(decider) }] *)
Definition new (decider : IDecider.t Err C S E)
    (saga : ISaga.t Err E C) : t :=
  {| super := StateComputation.new decider; saga := saga |}.

Definition decider (this : t) : IDecider.t Err C S E :=
  this.(super).(StateComputation.decider).

Definition initialState (this : t) : S :=
  this.(super).(StateComputation.initialState).

Definition decide (this : t) (c : C) (s : S)
    : completion Err (list E) :=
  StateComputation.decide this.(super) c s.

Definition evolve (this : t) (s : S) (e : E) : completion Err S :=
  StateComputation.evolve this.(super) s e.

(** [react(ar) { return this.saga.react(ar) }] *)
Definition react (this : t) (ar : E) : completion Err (list C) :=
  this.(saga).(ISaga.react) ar.

(** The overriding [computeNewState(state, command)]; [fuel] bounds the
    depth of the nested calls. *)
Fixpoint computeNewState {R X : Type} (fuel : nat) (this : t)
    (state : S) (command : C) : @M Err R C S E X S :=
  match fuel with
  | O => outOfFuel
  | Datatypes.S fuel' =>
      events <- call_decide (decider this) command state ;;
      newState <-
        Array.reduce (as_reducer (call_evolve (decider this)))
          events state ;;
      commands <-
        Array.flatMap (fun it => call_react this.(saga) it) events ;;
      Array.forEach commands
        (fun newState c => computeNewState fuel' this newState c)
        newState
  end.
End Class.
Arguments t : clear implicits.
End StateOrchestratingComputation.

(** *** [StateStoredAggregate] *)
Module StateStoredAggregate.
Section Class.
Context {Err R C S E : Type} `{ToBoolean S}.

Record t : Type := {
  super : StateComputation.t Err C S E;
  stateRepository : StateRepository.t Err R C S
}.

Definition new (decider : IDecider.t Err C S E)
    (stateRepository : StateRepository.t Err R C S) : t :=
  {| super := StateComputation.new decider;
     stateRepository := stateRepository |}.

Definition decider (this : t) : IDecider.t Err C S E :=
  this.(super).(StateComputation.decider).

Definition initialState (this : t) : S :=
  this.(super).(StateComputation.initialState).

Definition decide (this : t) (c : C) (s : S)
    : completion Err (list E) :=
  StateComputation.decide this.(super) c s.

Definition evolve (this : t) (s : S) (e : E) : completion Err S :=
  StateComputation.evolve this.(super) s e.

(** [async fetchState(c)] and [async save(s)] *)
Definition fetchState (this : t) (c : C)
    : R -> completion Err (option S) * R :=
  this.(stateRepository).(StateRepository.fetchState) c.

Definition save (this : t) (s : S) : R -> completion Err S * R :=
  this.(stateRepository).(StateRepository.save) s.

(** [async handle(command)] *)
Definition handle (this : t) (command : C)
    : @M Err R C S E unit S :=
  currentState <-
    await (FetchStateCall command)
      (this.(stateRepository).(StateRepository.fetchState) command) ;;
  newState <-
    StateComputation.computeNewState this.(super)
      (conditional currentState
         (decider this).(IDecider.initialState))
      command ;;
  await (SaveCall newState tt)
    (this.(stateRepository).(StateRepository.save) newState).
End Class.
Arguments t : clear implicits.
End StateStoredAggregate.

(** *** [StateStoredLockingAggregate] *)
Module StateStoredLockingAggregate.
Section Class.
Context {Err R C S E V : Type} `{ToBoolean S}.

Record t : Type := {
  super : StateComputation.t Err C S E;
  stateRepository : StateLockingRepository.t Err R C S V
}.

Definition new (decider : IDecider.t Err C S E)
    (stateRepository : StateLockingRepository.t Err R C S V) : t :=
  {| super := StateComputation.new decider;
     stateRepository := stateRepository |}.

Definition decider (this : t) : IDecider.t Err C S E :=
  this.(super).(StateComputation.decider).

Definition initialState (this : t) : S :=
  this.(super).(StateComputation.initialState).

Definition decide (this : t) (c : C) (s : S)
    : completion Err (list E) :=
  StateComputation.decide this.(super) c s.

Definition evolve (this : t) (s : S) (e : E) : completion Err S :=
  StateComputation.evolve this.(super) s e.

(** [async fetchState(c)] and [async save(s, v)] *)
Definition fetchState (this : t) (c : C)
    : R -> completion Err (option S * option V) * R :=
  this.(stateRepository).(StateLockingRepository.fetchState) c.

Definition save (this : t) (s : S) (v : option V)
    : R -> completion Err (S * V) * R :=
  this.(stateRepository).(StateLockingRepository.save) s v.

(** [async handle(command)] *)
Definition handle (this : t) (command : C)
    : @M Err R C S E (option V) (S * V) :=
  ' (currentState, version) <-
    await (FetchStateCall command)
      (this.(stateRepository).(StateLockingRepository.fetchState)
         command) ;;
  newState <-
    StateComputation.computeNewState this.(super)
      (conditional currentState
         (decider this).(IDecider.initialState))
      command ;;
  await (SaveCall newState version)
    (this.(stateRepository).(StateLockingRepository.save)
       newState version).
End Class.
Arguments t : clear implicits.
End StateStoredLockingAggregate.

(** *** [StateStoredOrchestratingAggregate] *)
Module StateStoredOrchestratingAggregate.
Section Class.
Context {Err R C S E : Type} `{ToBoolean S}.

Record t : Type := {
  super : StateOrchestratingComputation.t Err C S E;
  stateRepository : StateRepository.t Err R C S
}.

Definition new (decider : IDecider.t Err C S E)
    (stateRepository : StateRepository.t Err R C S)
    (saga : ISaga.t Err E C) : t :=
  {| super := StateOrchestratingComputation.new decider saga;
     stateRepository := stateRepository |}.

Definition decider (this : t) : IDecider.t Err C S E :=
  StateOrchestratingComputation.decider this.(super).

Definition initialState (this : t) : S :=
  StateOrchestratingComputation.initialState this.(super).

Definition decide (this : t) (c : C) (s : S)
    : completion Err (list E) :=
  StateOrchestratingComputation.decide this.(super) c s.

Definition evolve (this : t) (s : S) (e : E) : completion Err S :=
  StateOrchestratingComputation.evolve this.(super) s e.

Definition react (this : t) (ar : E) : completion Err (list C) :=
  StateOrchestratingComputation.react this.(super) ar.

(** [async fetchState(c)] and [async save(s)] *)
Definition fetchState (this : t) (c : C)
    : R -> completion Err (option S) * R :=
  this.(stateRepository).(StateRepository.fetchState) c.

Definition save (this : t) (s : S) : R -> completion Err S * R :=
  this.(stateRepository).(StateRepository.save) s.

(** [async handle(command)] *)
Definition handle (fuel : nat) (this : t) (command : C)
    : @M Err R C S E unit S :=
  currentState <-
    await (FetchStateCall command)
      (this.(stateRepository).(StateRepository.fetchState) command) ;;
  newState <-
    StateOrchestratingComputation.computeNewState fuel this.(super)
      (conditional currentState
         (decider this).(IDecider.initialState))
      command ;;
  await (SaveCall newState tt)
    (this.(stateRepository).(StateRepository.save) newState).
End Class.
Arguments t : clear implicits.
End StateStoredOrchestratingAggregate.

(** *** [StateStoredOrchestratingLockingAggregate] *)
Module StateStoredOrchestratingLockingAggregate.
Section Class.
Context {Err R C S E V : Type} `{ToBoolean S}.

Record t : Type := {
  super : StateOrchestratingComputation.t Err C S E;
  stateRepository : StateLockingRepository.t Err R C S V
}.

Definition new (decider : IDecider.t Err C S E)
    (stateRepository : StateLockingRepository.t Err R C S V)
    (saga : ISaga.t Err E C) : t :=
  {| super := StateOrchestratingComputation.new decider saga;
     stateRepository := stateRepository |}.

Definition decider (this : t) : IDecider.t Err C S E :=
  StateOrchestratingComputation.decider this.(super).

Definition initialState (this : t) : S :=
  StateOrchestratingComputation.initialState this.(super).

Definition decide (this : t) (c : C) (s : S)
    : completion Err (list E) :=
  StateOrchestratingComputation.decide this.(super) c s.

Definition evolve (this : t) (s : S) (e : E) : completion Err S :=
  StateOrchestratingComputation.evolve this.(super) s e.

Definition react (this : t) (ar : E) : completion Err (list C) :=
  StateOrchestratingComputation.react this.(super) ar.

(** [async fetchState(c)] and [async save(s, v)] *)
Definition fetchState (this : t) (c : C)
    : R -> completion Err (option S * option V) * R :=
  this.(stateRepository).(StateLockingRepository.fetchState) c.

Definition save (this : t) (s : S) (v : option V)
    : R -> completion Err (S * V) * R :=
  this.(stateRepository).(StateLockingRepository.save) s v.

(** [async handle(command)] *)
Definition handle (fuel : nat) (this : t) (command : C)
    : @M Err R C S E (option V) (S * V) :=
  ' (currentState, version) <-
    await (FetchStateCall command)
      (this.(stateRepository).(StateLockingRepository.fetchState)
         command) ;;
  newState <-
    StateOrchestratingComputation.computeNewState fuel this.(super)
      (conditional currentState
         (decider this).(IDecider.initialState))
      command ;;
  await (SaveCall newState version)
    (this.(stateRepository).(StateLockingRepository.save)
       newState version).
End Class.
Arguments t : clear implicits.
End StateStoredOrchestratingLockingAggregate.

End Rt.

(** ** Total collaborators seen from the run-time layer *)

Definition total_decider {Err C S E : Type} (decider : IDecider.t C S E)
    : Rt.IDecider.t Err C S E :=
  {| Rt.IDecider.decide := fun c s => Rt.Return (decider.(IDecider.decide) c s);
     Rt.IDecider.evolve := fun s e => Rt.Return (decider.(IDecider.evolve) s e);
     Rt.IDecider.initialState := decider.(IDecider.initialState) |}.

Definition total_saga {Err E C : Type} (saga : ISaga.t E C)
    : Rt.ISaga.t Err E C :=
  {| Rt.ISaga.react := fun e => Rt.Return (saga.(ISaga.react) e) |}.

(** A bounded result of the functional core as an outcome of the run-time
    layer. *)
Definition of_option {Err S : Type} (r : option S) : Rt.outcome Err S :=
  match r with
  | Some s => Rt.Returned s
  | None => Rt.OutOfFuel
  end.

(** ** What the log of a run says *)

Section Logs.
Context {Err C S E X : Type}.

Definition is_save (en : Rt.Entry Err C S E X) : bool :=
  match en.(Rt.call) with
  | Rt.SaveCall _ _ => true
  | _ => false
  end.

(** The [save] calls of a log, in order. *)
Definition saves (l : list (Rt.Entry Err C S E X))
    : list (Rt.Entry Err C S E X) :=
  filter is_save l.

(** No call of the log threw. *)
Definition clean (l : list (Rt.Entry Err C S E X)) : Prop :=
  Forall (fun en => en.(Rt.failure) = None) l.

(** A run that made the calls [calls] and ended with [r] recovered from
    nothing and threw nothing of its own: it ends with [Thrown err] exactly
    when its last call threw [err], and no earlier call threw. *)
Definition propagates {A : Type} (r : Rt.outcome Err A)
    (calls : list (Rt.Entry Err C S E X)) : Prop :=
  match r with
  | Rt.Thrown err =>
      exists before c,
        calls = before ++ [{| Rt.call := c; Rt.failure := Some err |}]
        /\ clean before
  | _ => clean calls
  end.

End Logs.

(** The log entry of a call that returned. *)
Definition returned_call {Err C S E X : Type} (c : Rt.Call C S E X)
    : Rt.Entry Err C S E X :=
  {| Rt.call := c; Rt.failure := None |}.

(** The calls to [evolve] that fold [events] from [s], first to last, each
    on the state that the previous one returned. *)
Fixpoint evolve_calls {C S E X : Type} (evolve : S -> E -> S) (s : S)
    (events : list E) : list (Rt.Call C S E X) :=
  match events with
  | [] => []
  | e :: events' =>
      Rt.EvolveCall s e :: evolve_calls evolve (evolve s e) events'
  end.

(** A computation that calls no repository and recovers from nothing: it
    leaves the store alone, logs no [save], and its outcome and the calls it
    logs satisfy [propagates]. *)
Definition quiet {Err R C S E X A : Type} (m : @Rt.M Err R C S E X A)
    : Prop :=
  forall w, exists calls,
    (snd (m w)).(Rt.log) = w.(Rt.log) ++ calls
    /\ (snd (m w)).(Rt.store) = w.(Rt.store)
    /\ propagates (fst (m w)) calls
    /\ saves calls = [].


(** The world after a call to [fetchState] that returned and left the store
    [fetched]. *)
Definition after_fetch {Err R C S E X : Type} (command : C) (fetched : R)
    (w : Rt.World Err R C S E X) : Rt.World Err R C S E X :=
  Rt.record (Rt.FetchStateCall command) None
    {| Rt.store := fetched; Rt.log := w.(Rt.log) |}.

(** What [handle] does once it has the state to start from: the computation,
    then the awaited [save] of its result. *)
Definition compute_and_save {Err R C S E X A : Type}
    (compute : @Rt.M Err R C S E X S) (x : X)
    (save : S -> R -> Rt.completion Err A * R) : @Rt.M Err R C S E X A :=
  Rt.bind compute (fun newState =>
    Rt.await (Rt.SaveCall newState x) (save newState)).

(** ** The orchestrating computation in the words of the specification *)

Module Spec.
Section Cascade.
Context {C S E : Type}.
Variable decider : IDecider.t C S E.
Variable saga : ISaga.t E C.

(** A loop that threads a value through its iterations and stops when an
    iteration does not return. *)
Fixpoint thread {A Y : Type} (body : Y -> A -> option Y) (xs : list A)
    (y : Y) : option Y :=
  match xs with
  | [] => Some y
  | x :: xs' =>
      match body y x with
      | Some y' => thread body xs' y'
      | None => None
      end
  end.

(** Section 4.2: compute [newState] as in 4.1; then for every decided
    event, in order, and for every follow-up command of [react(event)],
    in order, let [newState] become the result of the recursive call on
    [newState] and the follow-up command. *)
Fixpoint computeNewState (fuel : nat) (state : S) (command : C)
    : option S :=
  match fuel with
  | O => None
  | Datatypes.S fuel' =>
      let events := decider.(IDecider.decide) command state in
      let newState := fold_left decider.(IDecider.evolve) events state in
      thread
        (fun newState event =>
           thread
             (fun newState followUpCommand =>
                computeNewState fuel' newState followUpCommand)
             (saga.(ISaga.react) event) newState)
        events newState
  end.

(** The two loops of the cascade on their own: over the follow-up commands
    of one event, and over the events. *)
Definition commands_run (fuel : nat) (state : S) (commands : list C)
    : option S :=
  thread (fun newState c => computeNewState fuel newState c) commands state.

Definition events_run (fuel : nat) (state : S) (events : list E)
    : option S :=
  thread
    (fun newState event => commands_run fuel newState (saga.(ISaga.react) event))
    events state.

(** The same cascade as a relation, without a bound:
    [returns s c s'] when [computeNewState(s, c)] returns [s']. *)
Inductive returns : S -> C -> S -> Prop :=
| returns_call : forall s c s',
    events_cascade
      (fold_left decider.(IDecider.evolve)
         (decider.(IDecider.decide) c s) s)
      (decider.(IDecider.decide) c s) s' ->
    returns s c s'
with events_cascade : S -> list E -> S -> Prop :=
| events_done : forall s, events_cascade s [] s
| events_next : forall s e es s1 s2,
    commands_cascade s (saga.(ISaga.react) e) s1 ->
    events_cascade s1 es s2 ->
    events_cascade s (e :: es) s2
with commands_cascade : S -> list C -> S -> Prop :=
| commands_done : forall s, commands_cascade s [] s
| commands_next : forall s c cs s1 s2,
    returns s c s1 ->
    commands_cascade s1 cs s2 ->
    commands_cascade s (c :: cs) s2.
End Cascade.
End Spec.

Scheme returns_mut := Minimality for Spec.returns Sort Prop
  with events_cascade_mut := Minimality for Spec.events_cascade Sort Prop
  with commands_cascade_mut := Minimality for Spec.commands_cascade Sort Prop.

(** ** Concrete units and repositories *)

Module Example.

(** The in-memory repository of the test suite: one cell, [null] until the
    first [save]; [fetchState] returns the cell, [save] sets it and returns
    its argument. *)
Definition memory {Err C S : Type} : Rt.StateRepository.t Err (option S) C S :=
  {| Rt.StateRepository.fetchState := fun _ storage => (Rt.Return storage, storage);
     Rt.StateRepository.save := fun s _ => (Rt.Return s, Some s) |}.

(** A version-locking repository for the examples, in the manner of the
    in-memory one: one cell holds the state and its version; [save] rejects
    a version that is not the stored one and otherwise installs the state
    under a new version. *)
Definition locking_memory {C S : Type}
    : Rt.StateLockingRepository.t string (option (S * nat)) C S nat :=
  {| Rt.StateLockingRepository.fetchState := fun _ storage =>
       (Rt.Return (option_map fst storage, option_map snd storage), storage);
     Rt.StateLockingRepository.save := fun s v storage =>
       match option_map snd storage, v with
       | None, None => (Rt.Return (s, 0), Some (s, 0))
       | Some stored, Some given =>
           if Nat.eqb stored given
           then (Rt.Return (s, Datatypes.S stored), Some (s, Datatypes.S stored))
           else (Rt.Throw "conflict"%string, storage)
       | _, _ => (Rt.Throw "conflict"%string, storage)
       end |}.

(** The decision unit over integers of the specification's scenario:
    [decide(n, s) = [n]], [evolve(s, e) = s + e]. *)
Definition adder (initialState : Z) : IDecider.t Z Z Z :=
  {| IDecider.decide := fun n _ => [n];
     IDecider.evolve := fun s e => (s + e)%Z;
     IDecider.initialState := initialState |}.

(** The counter of the cascade scenario.  [react] sees the event only, so
    the event carries the count that results from the increment. *)
Inductive CounterEvent : Type :=
| Incremented (count : Z).

Definition counter : IDecider.t string Z CounterEvent :=
  {| IDecider.decide := fun c s =>
       if String.eqb c "inc" then [Incremented (s + 1)] else [];
     IDecider.evolve := fun s e =>
       match e with Incremented _ => (s + 1)%Z end;
     IDecider.initialState := 0%Z |}.

Definition counter_saga : ISaga.t CounterEvent string :=
  {| ISaga.react := fun e =>
       match e with
       | Incremented count => if (count <? 3)%Z then ["inc"%string] else []
       end |}.

(** A routing unit that never reacts. *)
Definition silent {E C : Type} : ISaga.t E C :=
  {| ISaga.react := fun _ => [] |}.

(** A decision unit whose [evolve] throws on every call. *)
Definition brittle {C S E : Type} (initialState : S)
    (decide : C -> S -> list E) : Rt.IDecider.t string C S E :=
  {| Rt.IDecider.decide := fun c s => Rt.Return (decide c s);
     Rt.IDecider.evolve := fun _ _ => Rt.Throw "evolve"%string;
     Rt.IDecider.initialState := initialState |}.

Definition empty_world {Err R C S E X : Type} (store : R)
    : Rt.World Err R C S E X :=
  {| Rt.store := store; Rt.log := [] |}.

End Example.

(** ** Methods and their receiver

    The layers above take a decision or routing unit as functions: its
    members do not read [this].  The source does not call all members the
    same way: [this.decider.decide(command, state)] and
    [this.saga.react(it)] are method calls, with the unit as [this], while
    [events.reduce(this.decider.evolve, state)] reads [evolve] off the unit
    and hands it to [reduce], which calls it with [this] undefined.  This
    layer keeps the receiver of every call, for units whose members are
    methods that read [this], as the classes of this file are. *)

Module Js.

(** What [this] is in a call of a member of a unit: the unit that holds the
    member, or [undefined] (class bodies and modules are strict code). *)
Inductive receiver : Type :=
| Holder
| Undefined.

(** What a call throws: the [TypeError] of reading a property of
    [undefined], or what the unit raises itself. *)
Inductive error (Err : Type) : Type :=
| TypeError
| Raised (err : Err).
Arguments TypeError {Err}.
Arguments Raised {Err} err.

Module IDecider.
Record t (Err C S E : Type) : Type := {
  decide : receiver -> C -> S -> Rt.completion (error Err) (list E);
  evolve : receiver -> S -> E -> Rt.completion (error Err) S;
  initialState : S
}.
End IDecider.

Module ISaga.
Record t (Err AR A : Type) : Type := {
  react : receiver -> AR -> Rt.completion (error Err) (list A)
}.
End ISaga.

(** A unit whose members are functions that do not read [this] (closures,
    arrow functions, functions stored in properties): every call completes
    the same way whatever the receiver. *)
Definition of_functions {Err C S E : Type}
    (decider : Rt.IDecider.t (error Err) C S E) : IDecider.t Err C S E :=
  {| IDecider.decide := fun _ c s => decider.(Rt.IDecider.decide) c s;
     IDecider.evolve := fun _ s e => decider.(Rt.IDecider.evolve) s e;
     IDecider.initialState := decider.(Rt.IDecider.initialState) |}.

Definition saga_of_function {Err E C : Type}
    (saga : Rt.ISaga.t (error Err) E C) : ISaga.t Err E C :=
  {| ISaga.react := fun _ e => saga.(Rt.ISaga.react) e |}.

Module StateComputation.
Section Class.
Context {Err C S E : Type}.

Record t : Type := {
  decider : IDecider.t Err C S E;
  initialState : S
}.

(** [constructor(decider) { this.initialState = decider.initialState }] *)
Definition new (decider : IDecider.t Err C S E) : t :=
  {| decider := decider;
     initialState := decider.(IDecider.initialState) |}.

(** [decide(c, s) { return this.decider.decide(c, s) }]: reading
    [this.decider] with [this] undefined is a [TypeError]. *)
Definition decide (this : t) (receiver : receiver) (c : C) (s : S)
    : Rt.completion (error Err) (list E) :=
  match receiver with
  | Holder => this.(decider).(IDecider.decide) Holder c s
  | Undefined => Rt.Throw TypeError
  end.

(** [evolve(s, e) { return this.decider.evolve(s, e) }] *)
Definition evolve (this : t) (receiver : receiver) (s : S) (e : E)
    : Rt.completion (error Err) S :=
  match receiver with
  | Holder => this.(decider).(IDecider.evolve) Holder s e
  | Undefined => Rt.Throw TypeError
  end.

(** The object as the [IDecider] that the class implements. *)
Definition as_decider (this : t) : IDecider.t Err C S E :=
  {| IDecider.decide := decide this;
     IDecider.evolve := evolve this;
     IDecider.initialState := this.(initialState) |}.

(** [computeNewState(state, command)]: [decide] is called as a method of
    the decision unit; [evolve] is read off the unit and every call of it
    by [reduce] has [this] undefined. *)
Definition computeNewState {R X : Type} (this : t) (state : S)
    (command : C) : @Rt.M (error Err) R C S E X S :=
  Rt.bind
    (Rt.invoke (Rt.DecideCall command state)
       (this.(decider).(IDecider.decide) Holder command state))
    (fun events =>
       Rt.Array.reduce
         (Rt.as_reducer
            (fun s e =>
               Rt.invoke (Rt.EvolveCall s e)
                 (this.(decider).(IDecider.evolve) Undefined s e)))
         events state).
End Class.
Arguments t : clear implicits.
End StateComputation.

Module StateOrchestratingComputation.
Section Class.
Context {Err C S E : Type}.

Record t : Type := {
  super : StateComputation.t Err C S E;
  saga : ISaga.t Err E C
}.

(** [constructor(decider, saga) { super(decider) }] *)
Definition new (decider : IDecider.t Err C S E) (saga : ISaga.t Err E C)
    : t :=
  {| super := StateComputation.new decider; saga := saga |}.

Definition decider (this : t) : IDecider.t Err C S E :=
  this.(super).(StateComputation.decider).

(** The overriding [computeNewState(state, command)]: as above for
    [decide] and [evolve]; [(it) => this.saga.react(it)] calls [react] as a
    method of the routing unit.  [fuel] bounds the depth of the nested
    calls. *)
Fixpoint computeNewState {R X : Type} (fuel : nat) (this : t) (state : S)
    (command : C) : @Rt.M (error Err) R C S E X S :=
  match fuel with
  | O => Rt.outOfFuel
  | Datatypes.S fuel' =>
      Rt.bind
        (Rt.invoke (Rt.DecideCall command state)
           ((decider this).(IDecider.decide) Holder command state))
        (fun events =>
           Rt.bind
             (Rt.Array.reduce
                (Rt.as_reducer
                   (fun s e =>
                      Rt.invoke (Rt.EvolveCall s e)
                        ((decider this).(IDecider.evolve) Undefined s e)))
                events state)
             (fun newState =>
                Rt.bind
                  (Rt.Array.flatMap
                     (fun it =>
                        Rt.invoke (Rt.ReactCall it)
                          (this.(saga).(ISaga.react) Holder it))
                     events)
                  (fun commands =>
                     Rt.Array.forEach commands
                       (fun newState c =>
                          computeNewState fuel' this newState c)
                       newState)))
  end.
End Class.
Arguments t : clear implicits.
End StateOrchestratingComputation.

End Js.

(** An aggregate of this file used as the decision unit of another one, as
    [implements IDecider] and the interfaces of the aggregates declare it
    can be: [inner] wraps the integer unit [decide(n, s) = [n]],
    [evolve(s, e) = s + e], given as functions, and [outer] is built on
    [inner]. *)
Module Nested.

Definition inner : Js.StateComputation.t string Z Z Z :=
  Js.StateComputation.new
    (Js.of_functions (total_decider (Example.adder 0))).

Definition outer : Js.StateComputation.t string Z Z Z :=
  Js.StateComputation.new (Js.StateComputation.as_decider inner).

Definition outer_orchestrating
    : Js.StateOrchestratingComputation.t string Z Z Z :=
  Js.StateOrchestratingComputation.new
    (Js.StateComputation.as_decider inner)
    (Js.saga_of_function (total_saga Example.silent)).

End Nested.


(** ** Further observations of a log, and runs of several commands *)

Section Observations.
Context {Err C S E X : Type}.

(** The calls to [decide] of a log, in order: the command and the state of
    each. *)
Definition decide_calls (l : list (Rt.Entry Err C S E X)) : list (C * S) :=
  flat_map
    (fun en =>
       match en.(Rt.call) with
       | Rt.DecideCall c s => [(c, s)]
       | _ => []
       end)
    l.

(** The calls to a repository: [fetchState] and [save]. *)
Definition is_repository_call (en : Rt.Entry Err C S E X) : bool :=
  match en.(Rt.call) with
  | Rt.FetchStateCall _ => true
  | Rt.SaveCall _ _ => true
  | _ => false
  end.

Definition repository_calls (l : list (Rt.Entry Err C S E X))
    : list (Rt.Entry Err C S E X) :=
  filter is_repository_call l.

(** The repository calls of one [handle(command)]: [fetchState(command)]
    alone, or [fetchState(command)] and then one [save]. *)
Definition one_fetch_then_save (command : C)
    (calls : list (Rt.Entry Err C S E X)) : Prop :=
  exists fetched,
    fetched.(Rt.call) = Rt.FetchStateCall command
    /\ (repository_calls calls = [fetched]
        \/ exists saved,
             is_save saved = true
             /\ repository_calls calls = [fetched; saved]).
End Observations.

(** A computation that calls no repository. *)
Definition no_repository_call {Err R C S E X A : Type}
    (m : @Rt.M Err R C S E X A) : Prop :=
  forall w, exists calls,
    (snd (m w)).(Rt.log) = w.(Rt.log) ++ calls
    /\ repository_calls calls = [].

(** [sequential step s trace s']: the calls of [trace] were made one after
    the other, the first on [s] and each next one on the state that [step]
    gives for the previous one, and [s'] is the state after the last. *)
Inductive sequential {C S : Type} (step : S -> C -> S)
    : S -> list (C * S) -> S -> Prop :=
| sequential_done : forall s, sequential step s [] s
| sequential_next : forall s c trace s',
    sequential step (step s c) trace s' ->
    sequential step s ((c, s) :: trace) s'.


(** ** More concrete units *)

Module Scenario.



(** A routing unit that answers every event of the counter with ["inc"]. *)
Definition echo_saga : ISaga.t Example.CounterEvent string :=
  {| ISaga.react := fun _ => ["inc"%string] |}.



(** A routing unit whose [react] throws on every event. *)
Definition throwing_saga {E C : Type} : Rt.ISaga.t string E C :=
  {| Rt.ISaga.react := fun _ => Rt.Throw "react"%string |}.

(** A state that is an object, and so always truthy. *)
Inductive Account : Type :=
| Balance (amount : Z).

#[global] Instance ToBoolean_Account : ToBoolean Account := fun _ => true.


End Scenario.

(** * Properties *)

(** ** The array methods *)

Section ArrayFacts.
Context {A B : Type}.

Lemma reduce_from_fold_left (f : B -> A -> B) (arr rest : list A) :
  forall (k : nat) (acc : B),
    Array.reduce_from (as_reducer f) arr k rest acc = fold_left f rest acc.
Proof.
  induction rest as [|x rest IH]; intros k acc; simpl.
  - reflexivity.
  - unfold as_reducer at 2. apply IH.
Qed.

Lemma reduce_fold_left (f : B -> A -> B) (arr : list A) (init : B) :
  Array.reduce (as_reducer f) arr init = fold_left f arr init.
Proof. apply reduce_from_fold_left. Qed.

Lemma flatMap_flat_map (f : A -> list B) (arr : list A) :
  Array.flatMap f arr = flat_map f arr.
Proof. induction arr as [|x arr IH]; simpl; congruence. Qed.
End ArrayFacts.

Section LoopFacts.
Context {A Y : Type}.

Lemma forEach_thread (body : Y -> A -> option Y) (arr : list A) :
  forall y, Array.forEach arr body y = Spec.thread body arr y.
Proof.
  induction arr as [|c arr IH]; intros y; simpl.
  - reflexivity.
  - destruct (body y c); auto.
Qed.

Lemma thread_app (body : Y -> A -> option Y) (xs ys : list A) :
  forall y,
    Spec.thread body (xs ++ ys) y =
    match Spec.thread body xs y with
    | Some y' => Spec.thread body ys y'
    | None => None
    end.
Proof.
  induction xs as [|x xs IH]; intros y; simpl.
  - reflexivity.
  - destruct (body y x); auto.
Qed.

Lemma thread_ext (body body' : Y -> A -> option Y) (xs : list A) :
  (forall y x, body y x = body' y x) ->
  forall y, Spec.thread body xs y = Spec.thread body' xs y.
Proof.
  intros Hext. induction xs as [|x xs IH]; intros y; simpl.
  - reflexivity.
  - rewrite Hext. destruct (body' y x); auto.
Qed.

Lemma thread_mono (body body' : Y -> A -> option Y) (xs : list A) :
  (forall y x y', body y x = Some y' -> body' y x = Some y') ->
  forall y y', Spec.thread body xs y = Some y' ->
               Spec.thread body' xs y = Some y'.
Proof.
  intros Hmono. induction xs as [|x xs IH]; intros y y'; simpl.
  - auto.
  - destruct (body y x) as [y1|] eqn:Hb; [|discriminate].
    rewrite (Hmono _ _ _ Hb). apply IH.
Qed.

(** The loop over the flattened follow-up commands is the loop over the
    events with, inside, the loop over the commands of each event. *)
Lemma thread_flat_map {Ev : Type} (f : Ev -> list A)
    (body : Y -> A -> option Y) (evs : list Ev) :
  forall y,
    Spec.thread body (flat_map f evs) y =
    Spec.thread (fun y ev => Spec.thread body (f ev) y) evs y.
Proof.
  induction evs as [|ev evs IH]; intros y; simpl.
  - reflexivity.
  - rewrite thread_app. destruct (Spec.thread body (f ev) y); auto.
Qed.
End LoopFacts.

(** ** The state computation *)

Section Computation.
Context {C S E : Type}.

Lemma computeNewState_unfold (this : StateComputation.t C S E) (s : S)
    (c : C) :
  StateComputation.computeNewState this s c =
  fold_left this.(StateComputation.decider).(IDecider.evolve)
    (this.(StateComputation.decider).(IDecider.decide) c s) s.
Proof.
  unfold StateComputation.computeNewState. apply reduce_fold_left.
Qed.

Lemma orchestrating_unfold (this : StateOrchestratingComputation.t C S E)
    (fuel : nat) (s : S) (c : C) :
  StateOrchestratingComputation.computeNewState (Datatypes.S fuel) this s c =
  let d := StateOrchestratingComputation.decider this in
  let events := d.(IDecider.decide) c s in
  Spec.thread
    (fun st c' => StateOrchestratingComputation.computeNewState fuel this st c')
    (flat_map this.(StateOrchestratingComputation.saga).(ISaga.react) events)
    (fold_left d.(IDecider.evolve) events s).
Proof.
  simpl. rewrite reduce_fold_left, flatMap_flat_map. apply forEach_thread.
Qed.

Lemma orchestrating_refines (this : StateOrchestratingComputation.t C S E) :
  forall (fuel : nat) (s : S) (c : C),
    StateOrchestratingComputation.computeNewState fuel this s c =
    Spec.computeNewState (StateOrchestratingComputation.decider this)
      this.(StateOrchestratingComputation.saga) fuel s c.
Proof.
  induction fuel as [|fuel IH]; intros s c.
  - reflexivity.
  - rewrite orchestrating_unfold. cbn zeta. rewrite thread_flat_map.
    cbn [Spec.computeNewState]. apply thread_ext. intros y ev.
    apply thread_ext. intros y' c'. apply IH.
Qed.

(** More fuel does not change a result. *)
Lemma cascade_fuel_mono (decider : IDecider.t C S E) (saga : ISaga.t E C) :
  forall (fuel : nat) (s : S) (c : C) (s' : S),
    Spec.computeNewState decider saga fuel s c = Some s' ->
    forall fuel', fuel <= fuel' ->
      Spec.computeNewState decider saga fuel' s c = Some s'.
Proof.
  induction fuel as [|fuel IH]; intros s c s' Hrun fuel' Hle.
  - discriminate.
  - destruct fuel' as [|fuel']; [lia|].
    cbn [Spec.computeNewState] in *. cbv zeta in *.
    revert Hrun. apply thread_mono. intros y ev y'.
    apply thread_mono. intros y1 c1 y1' H1.
    apply (IH _ _ _ H1). lia.
Qed.

Lemma cascade_fuel_returns (decider : IDecider.t C S E)
    (saga : ISaga.t E C) :
  forall (fuel : nat) (s : S) (c : C) (s' : S),
    Spec.computeNewState decider saga fuel s c = Some s' ->
    Spec.returns decider saga s c s'.
Proof.
  induction fuel as [|fuel IH]; intros s c s' Hrun.
  - discriminate.
  - cbn [Spec.computeNewState] in Hrun. cbv zeta in Hrun.
    constructor.
    remember (fold_left (IDecider.evolve decider)
                (IDecider.decide decider c s) s) as st eqn:Hst.
    clear Hst. revert st Hrun.
    induction (IDecider.decide decider c s) as [|ev evs IHevs];
      intros st Hrun; simpl in Hrun.
    + injection Hrun as ->. constructor.
    + destruct (Spec.thread _ (ISaga.react saga ev) st) as [st1|] eqn:Hcs;
        [|discriminate].
      apply Spec.events_next with (s1 := st1); [|apply IHevs; exact Hrun].
      clear Hrun IHevs. revert st Hcs.
      induction (ISaga.react saga ev) as [|c1 cs IHcs];
        intros st Hcs; simpl in Hcs.
      * injection Hcs as ->. constructor.
      * destruct (Spec.computeNewState decider saga fuel st c1)
          as [st2|] eqn:Hc1; [|discriminate].
        apply Spec.commands_next with (s1 := st2); auto.
Qed.
End Computation.

Section Cascade.
Context {C S E : Type}.
Variable decider : IDecider.t C S E.
Variable saga : ISaga.t E C.

Lemma commands_run_mono (fuel fuel' : nat) (st : S) (cs : list C)
    (st' : S) :
  fuel <= fuel' ->
  Spec.commands_run decider saga fuel st cs = Some st' ->
  Spec.commands_run decider saga fuel' st cs = Some st'.
Proof.
  intros Hle. unfold Spec.commands_run. apply thread_mono.
  intros y c y' H. eapply cascade_fuel_mono; eauto.
Qed.

Lemma events_run_mono (fuel fuel' : nat) (st : S) (evs : list E)
    (st' : S) :
  fuel <= fuel' ->
  Spec.events_run decider saga fuel st evs = Some st' ->
  Spec.events_run decider saga fuel' st evs = Some st'.
Proof.
  intros Hle. unfold Spec.events_run. apply thread_mono.
  intros y ev y'. apply commands_run_mono. exact Hle.
Qed.

Lemma cascade_returns_fuel (s : S) (c : C) (s' : S) :
  Spec.returns decider saga s c s' ->
  exists fuel, Spec.computeNewState decider saga fuel s c = Some s'.
Proof.
  intros Hret.
  induction Hret using returns_mut with
    (P0 := fun st evs st' =>
             exists fuel, Spec.events_run decider saga fuel st evs = Some st')
    (P1 := fun st cs st' =>
             exists fuel, Spec.commands_run decider saga fuel st cs = Some st').
  - destruct IHHret as [fuel Hfuel]. exists (Datatypes.S fuel).
    exact Hfuel.
  - exists 0. reflexivity.
  - destruct IHHret as [f1 H1]. destruct IHHret0 as [f2 H2].
    exists (Nat.max f1 f2).
    apply commands_run_mono with (fuel' := Nat.max f1 f2) in H1;
      [|apply Nat.le_max_l].
    apply events_run_mono with (fuel' := Nat.max f1 f2) in H2;
      [|apply Nat.le_max_r].
    unfold Spec.events_run in *. simpl. rewrite H1. exact H2.
  - exists 0. reflexivity.
  - destruct IHHret as [f1 H1]. destruct IHHret0 as [f2 H2].
    exists (Nat.max f1 f2).
    apply cascade_fuel_mono with (fuel' := Nat.max f1 f2) in H1;
      [|apply Nat.le_max_l].
    apply commands_run_mono with (fuel' := Nat.max f1 f2) in H2;
      [|apply Nat.le_max_r].
    unfold Spec.commands_run in *. simpl. rewrite H1. exact H2.
Qed.

(** For a decision unit given as functions: the orchestrating
    [computeNewState] folds the decided events through [evolve] and then,
    event by event in the order of [decide] and command by command in the
    order of [react], calls itself on the accumulated state and threads the
    result on.  For every bound on the depth of the recursion it is the
    cascade of section 4.2, and it returns [s'] under some bound exactly
    when that cascade, taken without a bound, ends in [s']. *)
Theorem orchestrating_computeNewState_cascade (s : S) (c : C) :
  (forall fuel,
     StateOrchestratingComputation.computeNewState fuel
       (StateOrchestratingComputation.new decider saga) s c =
     Spec.computeNewState decider saga fuel s c)
  /\ (forall s',
        (exists fuel,
           StateOrchestratingComputation.computeNewState fuel
             (StateOrchestratingComputation.new decider saga) s c = Some s')
        <-> Spec.returns decider saga s c s').
Proof.
  assert (Heq : forall fuel,
     StateOrchestratingComputation.computeNewState fuel
       (StateOrchestratingComputation.new decider saga) s c =
     Spec.computeNewState decider saga fuel s c).
  { intros fuel.
    apply (orchestrating_refines
             (StateOrchestratingComputation.new decider saga)). }
  split; [exact Heq|].
  intros s'. split.
  - intros [fuel Hrun]. rewrite Heq in Hrun.
    eapply cascade_fuel_returns; eauto.
  - intros Hret. destruct (cascade_returns_fuel Hret) as [fuel Hrun].
    exists fuel. rewrite Heq. exact Hrun.
Qed.
End Cascade.

Section Orchestration.
Context {C S E : Type}.

Lemma flat_map_silent (react : E -> list C) (events : list E) :
  (forall e, react e = []) -> flat_map react events = [].
Proof.
  intros Hsilent. induction events as [|e events IH]; simpl.
  - reflexivity.
  - rewrite Hsilent. exact IH.
Qed.

(** C7: with a routing unit whose [react] returns the empty sequence for
    every event, the orchestrating [computeNewState(s, c)] returns, without
    any nested call, the state that the plain [computeNewState(s, c)]
    returns. *)
Theorem orchestrating_silent_saga (decider : IDecider.t C S E)
    (saga : ISaga.t E C) (fuel : nat) (s : S) (c : C) :
  (forall e, saga.(ISaga.react) e = []) ->
  StateOrchestratingComputation.computeNewState (Datatypes.S fuel)
    (StateOrchestratingComputation.new decider saga) s c =
  Some (StateComputation.computeNewState (StateComputation.new decider) s c).
Proof.
  intros Hsilent. rewrite orchestrating_unfold. cbn zeta.
  cbn [StateOrchestratingComputation.saga StateOrchestratingComputation.new].
  rewrite (flat_map_silent _ _ Hsilent). simpl.
  rewrite computeNewState_unfold. reflexivity.
Qed.
End Orchestration.

Lemma orchestrating_silent_saga_witness :
  StateOrchestratingComputation.computeNewState 1
    (StateOrchestratingComputation.new Example.counter Example.silent)
    0%Z "inc"%string =
  Some (StateComputation.computeNewState
          (StateComputation.new Example.counter) 0%Z "inc"%string).
Proof.
  apply (orchestrating_silent_saga Example.counter Example.silent 0).
  intros e. reflexivity.
Defined.

(** ** Logs *)

Section LogFacts.
Context {Err C S E X : Type}.
Implicit Types calls before : list (Rt.Entry Err C S E X).

Lemma saves_app calls before :
  saves (before ++ calls) = saves before ++ saves calls.
Proof. apply filter_app. Qed.

Lemma clean_app calls before :
  clean before -> clean calls -> clean (before ++ calls).
Proof. intros H1 H2. apply Forall_app. split; assumption. Qed.

Lemma clean_one (c : Rt.Call C S E X) :
  clean [{| Rt.call := c; Rt.failure := @None Err |}].
Proof. repeat constructor. Qed.

Lemma propagates_app {A : Type} (r : Rt.outcome Err A) calls before :
  clean before -> propagates r calls -> propagates r (before ++ calls).
Proof.
  intros Hclean Hr. destruct r as [a|err|]; simpl in *.
  - apply clean_app; assumption.
  - destruct Hr as (b & c & -> & Hb). exists (before ++ b), c. split.
    + apply app_assoc.
    + apply clean_app; assumption.
  - apply clean_app; assumption.
Qed.



End LogFacts.

(** ** Computations that call no repository *)

Section Quiet.
Context {Err R C S E X : Type}.
Abbreviation M := (@Rt.M Err R C S E X).

Lemma quiet_ret {A : Type} (a : A) : quiet (Rt.ret a : M A).
Proof.
  intros w. exists []. simpl. rewrite app_nil_r.
  repeat split; constructor.
Qed.

Lemma quiet_outOfFuel {A : Type} : quiet (Rt.outOfFuel : M A).
Proof.
  intros w. exists []. simpl. rewrite app_nil_r.
  repeat split; constructor.
Qed.

Lemma quiet_invoke {A : Type} (c : Rt.Call C S E X)
    (r : Rt.completion Err A) :
  (forall f : option Err,
     is_save {| Rt.call := c; Rt.failure := f |} = false) ->
  quiet (Rt.invoke c r : M A).
Proof.
  intros Hc w. unfold Rt.invoke.
  destruct r as [a|err]; simpl.
  - exists [{| Rt.call := c; Rt.failure := None |}].
    repeat split; simpl.
    + apply clean_one.
    + unfold saves. simpl. rewrite Hc. reflexivity.
  - exists [{| Rt.call := c; Rt.failure := Some err |}].
    repeat split; simpl.
    + exists [], c. split; [reflexivity|constructor].
    + unfold saves. simpl. rewrite Hc. reflexivity.
Qed.

Lemma quiet_bind {A B : Type} (m : M A) (k : A -> M B) :
  quiet m -> (forall a, quiet (k a)) -> quiet (Rt.bind m k).
Proof.
  intros Hm Hk w. unfold Rt.bind.
  destruct (Hm w) as (calls1 & Hlog1 & Hst1 & Hp1 & Hs1).
  destruct (m w) as [r1 w1]. simpl in Hlog1, Hst1, Hp1.
  destruct r1 as [a|err|].
  - destruct (Hk a w1) as (calls2 & Hlog2 & Hst2 & Hp2 & Hs2).
    exists (calls1 ++ calls2). repeat split.
    + rewrite Hlog2, Hlog1. symmetry. apply app_assoc.
    + congruence.
    + apply propagates_app; assumption.
    + rewrite saves_app, Hs1, Hs2. reflexivity.
  - exists calls1. repeat split; assumption.
  - exists calls1. repeat split; assumption.
Qed.

Lemma quiet_reduce_from {A B : Type}
    (callbackfn : B -> A -> nat -> list A -> M B) (arr rest : list A) :
  (forall acc x k, quiet (callbackfn acc x k arr)) ->
  forall k acc, quiet (Rt.Array.reduce_from callbackfn arr k rest acc).
Proof.
  intros Hcb. induction rest as [|x rest IH]; intros k acc; simpl.
  - apply quiet_ret.
  - apply quiet_bind; [apply Hcb|]. intros acc'. apply IH.
Qed.

Lemma quiet_flatMap {A B : Type} (callback : A -> M (list B))
    (arr : list A) :
  (forall x, quiet (callback x)) -> quiet (Rt.Array.flatMap callback arr).
Proof.
  intros Hcb. induction arr as [|x arr IH]; simpl.
  - apply quiet_ret.
  - apply quiet_bind; [apply Hcb|]. intros ys.
    apply quiet_bind; [apply IH|]. intros zs. apply quiet_ret.
Qed.

Lemma quiet_forEach {A Y : Type} (body : Y -> A -> M Y) (arr : list A) :
  (forall y c, quiet (body y c)) ->
  forall y, quiet (Rt.Array.forEach arr body y).
Proof.
  intros Hbody. induction arr as [|c arr IH]; intros y; simpl.
  - apply quiet_ret.
  - apply quiet_bind; [apply Hbody|]. intros y'. apply IH.
Qed.

Lemma quiet_call_decide (decider : Rt.IDecider.t Err C S E) (c : C) (s : S) :
  quiet (Rt.call_decide decider c s : M (list E)).
Proof. apply quiet_invoke. reflexivity. Qed.

Lemma quiet_call_evolve (decider : Rt.IDecider.t Err C S E) (s : S) (e : E) :
  quiet (Rt.call_evolve decider s e : M S).
Proof. apply quiet_invoke. reflexivity. Qed.

Lemma quiet_call_react (saga : Rt.ISaga.t Err E C) (e : E) :
  quiet (Rt.call_react saga e : M (list C)).
Proof. apply quiet_invoke. reflexivity. Qed.

Lemma quiet_computeNewState (this : Rt.StateComputation.t Err C S E)
    (s : S) (c : C) :
  quiet (Rt.StateComputation.computeNewState this s c : M S).
Proof.
  unfold Rt.StateComputation.computeNewState.
  apply quiet_bind; [apply quiet_call_decide|]. intros events.
  apply quiet_reduce_from. intros acc x k. apply quiet_call_evolve.
Qed.

Lemma quiet_orchestrating_computeNewState
    (this : Rt.StateOrchestratingComputation.t Err C S E) :
  forall (fuel : nat) (s : S) (c : C),
    quiet (Rt.StateOrchestratingComputation.computeNewState fuel this s c
           : M S).
Proof.
  induction fuel as [|fuel IH]; intros s c; simpl.
  - apply quiet_outOfFuel.
  - apply quiet_bind; [apply quiet_call_decide|]. intros events.
    apply quiet_bind.
    { apply quiet_reduce_from. intros acc x k. apply quiet_call_evolve. }
    intros newState. apply quiet_bind.
    { apply quiet_flatMap. intros x. apply quiet_call_react. }
    intros commands. apply quiet_forEach. intros y c'. apply IH.
Qed.
End Quiet.

(** ** The shape of [handle] *)

Section Handle.
Context {Err R C S E X : Type}.
Abbreviation M := (@Rt.M Err R C S E X).
Abbreviation World := (Rt.World Err R C S E X).

Lemma await_returns {A : Type} (c : Rt.Call C S E X)
    (f : R -> Rt.completion Err A * R) (w : World) (a : A) (st : R) :
  f w.(Rt.store) = (Rt.Return a, st) ->
  Rt.await c f w =
  (Rt.Returned a, Rt.record c None {| Rt.store := st; Rt.log := w.(Rt.log) |}).
Proof. intros Hf. unfold Rt.await. rewrite Hf. reflexivity. Qed.

Lemma await_throws {A : Type} (c : Rt.Call C S E X)
    (f : R -> Rt.completion Err A * R) (w : World) (err : Err) (st : R) :
  f w.(Rt.store) = (Rt.Throw err, st) ->
  Rt.await c f w =
  (Rt.Thrown err,
   Rt.record c (Some err) {| Rt.store := st; Rt.log := w.(Rt.log) |}).
Proof. intros Hf. unfold Rt.await. rewrite Hf. reflexivity. Qed.


End Handle.

(** ** Total collaborators: the run-time layer computes the functional core *)

Section Total.
Context {Err R C S E X : Type}.
Abbreviation M := (@Rt.M Err R C S E X).
Abbreviation World := (Rt.World Err R C S E X).
Variable decider : IDecider.t C S E.
Variable saga : ISaga.t E C.

Lemma bind_returned {A B : Type} (m : M A) (k : A -> M B) (w : World)
    (a : A) :
  fst (m w) = Rt.Returned a -> Rt.bind m k w = k a (snd (m w)).
Proof.
  unfold Rt.bind. destruct (m w) as [r w']. simpl. intros ->. reflexivity.
Qed.

Lemma total_reduce_from (arr rest : list E) :
  forall (k : nat) (acc : S) (w : World),
    fst (Rt.Array.reduce_from
           (Rt.as_reducer (Rt.call_evolve (total_decider decider)))
           arr k rest acc w) =
    Rt.Returned (fold_left decider.(IDecider.evolve) rest acc).
Proof.
  induction rest as [|e rest IH]; intros k acc w; simpl.
  - reflexivity.
  - unfold Rt.bind, Rt.as_reducer at 2. simpl. apply IH.
Qed.

Lemma total_flatMap (events : list E) :
  forall w : World,
    fst (Rt.Array.flatMap
           (fun it => Rt.call_react (total_saga saga) it) events w) =
    Rt.Returned (flat_map saga.(ISaga.react) events).
Proof.
  induction events as [|e events IH]; intros w; simpl.
  - reflexivity.
  - unfold Rt.bind at 1. simpl. unfold Rt.bind at 1.
    specialize (IH (Rt.record (Rt.ReactCall e) None w)).
    destruct (Rt.Array.flatMap _ events _) as [r w']. simpl in IH.
    subst r. reflexivity.
Qed.

Lemma total_forEach (body : S -> C -> M S) (pure : S -> C -> option S)
    (commands : list C) :
  (forall st c w, fst (body st c w) = of_option (pure st c)) ->
  forall st w,
    fst (Rt.Array.forEach commands body st w) =
    of_option (Spec.thread pure commands st).
Proof.
  intros Hbody. induction commands as [|c commands IH]; intros st w; simpl.
  - reflexivity.
  - unfold Rt.bind. specialize (Hbody st c w).
    destruct (body st c w) as [r w']. simpl in Hbody. subst r.
    destruct (pure st c) as [st'|]; simpl.
    + apply IH.
    + reflexivity.
Qed.


(** And so does the orchestrating computation, bound by bound. *)
Lemma total_orchestrating_computeNewState :
  forall (fuel : nat) (s : S) (c : C) (w : World),
    fst (Rt.StateOrchestratingComputation.computeNewState fuel
           (Rt.StateOrchestratingComputation.new
              (total_decider decider) (total_saga saga)) s c w) =
    of_option
      (StateOrchestratingComputation.computeNewState fuel
         (StateOrchestratingComputation.new decider saga) s c).
Proof.
  induction fuel as [|fuel IH]; intros s c w.
  - reflexivity.
  - rewrite orchestrating_unfold. cbn zeta.
    cbn [Rt.StateOrchestratingComputation.computeNewState].
    rewrite bind_returned with (a := decider.(IDecider.decide) c s)
      by reflexivity.
    rewrite bind_returned
      with (a := fold_left decider.(IDecider.evolve)
                   (decider.(IDecider.decide) c s) s)
      by apply total_reduce_from.
    rewrite bind_returned
      with (a := flat_map saga.(ISaga.react) (decider.(IDecider.decide) c s))
      by apply total_flatMap.
    apply total_forEach. intros st c' w'. apply IH.
Qed.
End Total.

Section FoldOrder.
Context {C S E : Type}.
Variable decider : IDecider.t C S E.

Lemma total_reduce_from_log {Err R X : Type} (arr rest : list E) :
  forall (k : nat) (acc : S) (w : Rt.World Err R C S E X),
    Rt.Array.reduce_from
      (Rt.as_reducer (Rt.call_evolve (total_decider decider)))
      arr k rest acc w =
    (Rt.Returned (fold_left decider.(IDecider.evolve) rest acc),
     {| Rt.store := w.(Rt.store);
        Rt.log :=
          w.(Rt.log)
          ++ map returned_call
               (evolve_calls decider.(IDecider.evolve) acc rest) |}).
Proof.
  induction rest as [|e rest IH]; intros k acc w.
  - simpl. rewrite app_nil_r. destruct w. reflexivity.
  - cbn [Rt.Array.reduce_from]. unfold Rt.bind.
    change (Rt.as_reducer (Rt.call_evolve (total_decider decider))
              acc e k arr w)
      with (@Rt.Returned Err S (decider.(IDecider.evolve) acc e),
            Rt.record (Rt.EvolveCall acc e) None w).
    cbv beta iota. rewrite IH. simpl. rewrite <- app_assoc. reflexivity.
Qed.

(** For a decision unit given as functions, [computeNewState(s, c)] is the
    left fold of [evolve] over [decide(c, s)] starting from [s]; and the
    calls it makes are the call to [decide] and then the calls to [evolve]
    on the events in the order of that sequence, each on the state returned
    by the previous one. *)
Theorem computeNewState_fold (s : S) (c : C) :
  StateComputation.computeNewState (StateComputation.new decider) s c =
    fold_left decider.(IDecider.evolve) (decider.(IDecider.decide) c s) s
  /\ forall (Err R X : Type) (w : Rt.World Err R C S E X),
       Rt.StateComputation.computeNewState
         (Rt.StateComputation.new (total_decider decider)) s c w =
       (Rt.Returned
          (fold_left decider.(IDecider.evolve)
             (decider.(IDecider.decide) c s) s),
        {| Rt.store := w.(Rt.store);
           Rt.log :=
             w.(Rt.log)
             ++ map returned_call
                  (Rt.DecideCall c s
                   :: evolve_calls decider.(IDecider.evolve) s
                        (decider.(IDecider.decide) c s)) |}).
Proof.
  split.
  - apply computeNewState_unfold.
  - intros Err R X w.
    unfold Rt.StateComputation.computeNewState, Rt.bind.
    cbn [Rt.call_decide Rt.invoke total_decider Rt.IDecider.decide
         Rt.StateComputation.new Rt.StateComputation.decider].
    unfold Rt.Array.reduce. rewrite total_reduce_from_log. simpl.
    rewrite <- app_assoc. reflexivity.
Qed.
End FoldOrder.

(** ** Commands that decide nothing *)

(** C8: when [decide(c, s)] returns the empty sequence,
    [computeNewState(s, c)] is [s]; and [evolve] is not called: with any
    [evolve] in its place, even one that throws, the computation returns [s]
    after the one call to [decide]. *)
Theorem computeNewState_no_events {C S E : Type}
    (decider : IDecider.t C S E) (s : S) (c : C) :
  decider.(IDecider.decide) c s = [] ->
  StateComputation.computeNewState (StateComputation.new decider) s c = s
  /\ forall (Err R X : Type) (evolve' : S -> E -> Rt.completion Err S)
            (w : Rt.World Err R C S E X),
       Rt.StateComputation.computeNewState
         (Rt.StateComputation.new
            {| Rt.IDecider.decide := fun c s =>
                 Rt.Return (decider.(IDecider.decide) c s);
               Rt.IDecider.evolve := evolve';
               Rt.IDecider.initialState :=
                 decider.(IDecider.initialState) |})
         s c w =
       (Rt.Returned s, Rt.record (Rt.DecideCall c s) None w).
Proof.
  intros Hnone. split.
  - rewrite computeNewState_unfold. simpl. rewrite Hnone. reflexivity.
  - intros Err R X evolve' w.
    unfold Rt.StateComputation.computeNewState, Rt.bind, Rt.call_decide.
    simpl. rewrite Hnone. reflexivity.
Qed.

Lemma computeNewState_no_events_witness :
  StateComputation.computeNewState
    (StateComputation.new Example.counter) 7%Z "dec"%string = 7%Z
  /\ Rt.StateComputation.computeNewState
       (Rt.StateComputation.new
          (Example.brittle 0%Z Example.counter.(IDecider.decide)))
       7%Z "dec"%string
       (Example.empty_world (X := unit) tt) =
     (Rt.Returned 7%Z,
      {| Rt.store := tt;
         Rt.log := [{| Rt.call := Rt.DecideCall "dec"%string 7%Z;
                       Rt.failure := None |}] |}).
Proof.
  destruct (computeNewState_no_events Example.counter 7%Z "dec"%string
              eq_refl) as [Hpure Hrun].
  split.
  - exact Hpure.
  - exact (Hrun string unit unit (fun _ _ => Rt.Throw "evolve"%string)
             (Example.empty_world tt)).
Defined.

(** ** The cascade of the counter *)

(** C9: for the counter ([decide] maps ["inc"] to the one event
    [Incremented], [evolve] adds 1) and the routing unit that answers
    [Incremented] with [["inc"]] while the resulting count is below 3, the
    orchestrating [computeNewState(0, "inc")] returns 3: it needs three
    nested calls and no more, and the calls it makes are the initial
    increment and two follow-up increments, the third [react] returning
    nothing. *)
Theorem counter_cascade :
  (forall k,
     StateOrchestratingComputation.computeNewState (3 + k)
       (StateOrchestratingComputation.new Example.counter
          Example.counter_saga) 0%Z "inc"%string = Some 3%Z)
  /\ StateOrchestratingComputation.computeNewState 2
       (StateOrchestratingComputation.new Example.counter
          Example.counter_saga) 0%Z "inc"%string = None
  /\ Rt.StateOrchestratingComputation.computeNewState 3
       (Rt.StateOrchestratingComputation.new
          (total_decider (Err := string) Example.counter)
          (total_saga Example.counter_saga))
       0%Z "inc"%string (Example.empty_world (X := unit) tt) =
     (Rt.Returned 3%Z,
      {| Rt.store := tt;
         Rt.log :=
           map (fun c => {| Rt.call := c; Rt.failure := None |})
             [ Rt.DecideCall "inc"%string 0%Z;
               Rt.EvolveCall 0%Z (Example.Incremented 1);
               Rt.ReactCall (Example.Incremented 1);
               Rt.DecideCall "inc"%string 1%Z;
               Rt.EvolveCall 1%Z (Example.Incremented 2);
               Rt.ReactCall (Example.Incremented 2);
               Rt.DecideCall "inc"%string 2%Z;
               Rt.EvolveCall 2%Z (Example.Incremented 3);
               Rt.ReactCall (Example.Incremented 3) ] |}).
Proof.
  split; [|split].
  - intros k.
    rewrite (orchestrating_refines
               (StateOrchestratingComputation.new Example.counter
                  Example.counter_saga)).
    apply cascade_fuel_mono with (fuel := 3); [reflexivity|lia].
  - reflexivity.
  - reflexivity.
Qed.

(** ** Delegation *)

(** C10: every aggregate answers [decide], [evolve] and [initialState] with
    its decision unit's, and the orchestrating aggregates answer [react]
    with their routing unit's. *)
Theorem aggregates_delegate {Err R RL C S E V : Type}
    (decider : Rt.IDecider.t Err C S E) (saga : Rt.ISaga.t Err E C)
    (repository : Rt.StateRepository.t Err R C S)
    (locking : Rt.StateLockingRepository.t Err RL C S V) :
  let plain := Rt.StateStoredAggregate.new (E := E) decider repository in
  let locked := Rt.StateStoredLockingAggregate.new decider locking in
  let orchestrating :=
    Rt.StateStoredOrchestratingAggregate.new decider repository saga in
  let orchestrating_locked :=
    Rt.StateStoredOrchestratingLockingAggregate.new decider locking saga in
  (forall c s,
     Rt.StateStoredAggregate.decide plain c s =
       decider.(Rt.IDecider.decide) c s
     /\ Rt.StateStoredLockingAggregate.decide locked c s =
          decider.(Rt.IDecider.decide) c s
     /\ Rt.StateStoredOrchestratingAggregate.decide orchestrating c s =
          decider.(Rt.IDecider.decide) c s
     /\ Rt.StateStoredOrchestratingLockingAggregate.decide
          orchestrating_locked c s =
          decider.(Rt.IDecider.decide) c s)
  /\ (forall s e,
        Rt.StateStoredAggregate.evolve plain s e =
          decider.(Rt.IDecider.evolve) s e
        /\ Rt.StateStoredLockingAggregate.evolve locked s e =
             decider.(Rt.IDecider.evolve) s e
        /\ Rt.StateStoredOrchestratingAggregate.evolve orchestrating s e =
             decider.(Rt.IDecider.evolve) s e
        /\ Rt.StateStoredOrchestratingLockingAggregate.evolve
             orchestrating_locked s e =
             decider.(Rt.IDecider.evolve) s e)
  /\ (Rt.StateStoredAggregate.initialState plain =
        decider.(Rt.IDecider.initialState)
      /\ Rt.StateStoredLockingAggregate.initialState locked =
           decider.(Rt.IDecider.initialState)
      /\ Rt.StateStoredOrchestratingAggregate.initialState orchestrating =
           decider.(Rt.IDecider.initialState)
      /\ Rt.StateStoredOrchestratingLockingAggregate.initialState
           orchestrating_locked =
           decider.(Rt.IDecider.initialState))
  /\ (forall e,
        Rt.StateStoredOrchestratingAggregate.react orchestrating e =
          saga.(Rt.ISaga.react) e
        /\ Rt.StateStoredOrchestratingLockingAggregate.react
             orchestrating_locked e =
             saga.(Rt.ISaga.react) e).
Proof.
  intros plain locked orchestrating orchestrating_locked.
  repeat split.
Qed.

(** ** [handle]: failures and the call to [save] *)

Section HandleDiscipline.
Context {Err R RL C S E V : Type} `{ToBoolean S}.
Variable decider : Rt.IDecider.t Err C S E.
Variable saga : Rt.ISaga.t Err E C.
Variable repository : Rt.StateRepository.t Err R C S.
Variable locking : Rt.StateLockingRepository.t Err RL C S V.






End HandleDiscipline.

(** ** [handle]: the state it starts from and the version it saves under *)

Section ConditionalFacts.
Context {S : Type} `{ToBoolean S}.

Lemma conditional_absent (other : S) : conditional None other = other.
Proof. reflexivity. Qed.

Lemma conditional_truthy (s other : S) :
  toBoolean s = true -> conditional (Some s) other = s.
Proof.
  intros Ht. unfold conditional.
  change (toBoolean (Some s)) with (toBoolean s). rewrite Ht. reflexivity.
Qed.

Lemma conditional_falsy (s other : S) :
  toBoolean s = false -> conditional (Some s) other = other.
Proof.
  intros Hf. unfold conditional.
  change (toBoolean (Some s)) with (toBoolean s). rewrite Hf. reflexivity.
Qed.
End ConditionalFacts.

Section HandleFetched.
Context {Err R RL C S E V : Type} `{ToBoolean S}.
Variable decider : Rt.IDecider.t Err C S E.
Variable saga : Rt.ISaga.t Err E C.
Variable repository : Rt.StateRepository.t Err R C S.
Variable locking : Rt.StateLockingRepository.t Err RL C S V.

Lemma plain_handle_fetched (command : C) (w : Rt.World Err R C S E unit)
    (currentState : option S) (fetched : R) :
  repository.(Rt.StateRepository.fetchState) command w.(Rt.store) =
    (Rt.Return currentState, fetched) ->
  Rt.StateStoredAggregate.handle
    (Rt.StateStoredAggregate.new decider repository) command w =
  compute_and_save
    (Rt.StateComputation.computeNewState (Rt.StateComputation.new decider)
       (conditional currentState decider.(Rt.IDecider.initialState)) command)
    tt repository.(Rt.StateRepository.save)
    (after_fetch command fetched w).
Proof.
  intros Hfetch. unfold Rt.StateStoredAggregate.handle.
  unfold Rt.bind at 1. cbn [Rt.StateStoredAggregate.stateRepository
                            Rt.StateStoredAggregate.new].
  rewrite (await_returns _ _ _ Hfetch). reflexivity.
Qed.

Lemma orchestrating_handle_fetched (fuel : nat) (command : C)
    (w : Rt.World Err R C S E unit) (currentState : option S)
    (fetched : R) :
  repository.(Rt.StateRepository.fetchState) command w.(Rt.store) =
    (Rt.Return currentState, fetched) ->
  Rt.StateStoredOrchestratingAggregate.handle fuel
    (Rt.StateStoredOrchestratingAggregate.new decider repository saga)
    command w =
  compute_and_save
    (Rt.StateOrchestratingComputation.computeNewState fuel
       (Rt.StateOrchestratingComputation.new decider saga)
       (conditional currentState decider.(Rt.IDecider.initialState)) command)
    tt repository.(Rt.StateRepository.save)
    (after_fetch command fetched w).
Proof.
  intros Hfetch. unfold Rt.StateStoredOrchestratingAggregate.handle.
  unfold Rt.bind at 1.
  cbn [Rt.StateStoredOrchestratingAggregate.stateRepository
       Rt.StateStoredOrchestratingAggregate.new].
  rewrite (await_returns _ _ _ Hfetch). reflexivity.
Qed.

Lemma locking_handle_fetched (command : C)
    (w : Rt.World Err RL C S E (option V)) (currentState : option S)
    (version : option V) (fetched : RL) :
  locking.(Rt.StateLockingRepository.fetchState) command w.(Rt.store) =
    (Rt.Return (currentState, version), fetched) ->
  Rt.StateStoredLockingAggregate.handle
    (Rt.StateStoredLockingAggregate.new decider locking) command w =
  compute_and_save
    (Rt.StateComputation.computeNewState (Rt.StateComputation.new decider)
       (conditional currentState decider.(Rt.IDecider.initialState)) command)
    version
    (fun newState =>
       locking.(Rt.StateLockingRepository.save) newState version)
    (after_fetch command fetched w).
Proof.
  intros Hfetch. unfold Rt.StateStoredLockingAggregate.handle.
  unfold Rt.bind at 1.
  cbn [Rt.StateStoredLockingAggregate.stateRepository
       Rt.StateStoredLockingAggregate.new].
  rewrite (await_returns _ _ _ Hfetch). reflexivity.
Qed.

Lemma orchestrating_locking_handle_fetched (fuel : nat) (command : C)
    (w : Rt.World Err RL C S E (option V)) (currentState : option S)
    (version : option V) (fetched : RL) :
  locking.(Rt.StateLockingRepository.fetchState) command w.(Rt.store) =
    (Rt.Return (currentState, version), fetched) ->
  Rt.StateStoredOrchestratingLockingAggregate.handle fuel
    (Rt.StateStoredOrchestratingLockingAggregate.new decider locking saga)
    command w =
  compute_and_save
    (Rt.StateOrchestratingComputation.computeNewState fuel
       (Rt.StateOrchestratingComputation.new decider saga)
       (conditional currentState decider.(Rt.IDecider.initialState)) command)
    version
    (fun newState =>
       locking.(Rt.StateLockingRepository.save) newState version)
    (after_fetch command fetched w).
Proof.
  intros Hfetch. unfold Rt.StateStoredOrchestratingLockingAggregate.handle.
  unfold Rt.bind at 1.
  cbn [Rt.StateStoredOrchestratingLockingAggregate.stateRepository
       Rt.StateStoredOrchestratingLockingAggregate.new].
  rewrite (await_returns _ _ _ Hfetch). reflexivity.
Qed.

(** C5: the locking aggregates call [save] with the version that
    [fetchState] returned, as it is (absent for a first-time entity), on
    the store as [fetchState] left it, and the outcome of [handle] is the
    outcome of that call. *)
Theorem locking_handle_passes_version (command : C)
    (w : Rt.World Err RL C S E (option V)) (currentState : option S)
    (version : option V) (fetched : RL) :
  locking.(Rt.StateLockingRepository.fetchState) command w.(Rt.store) =
    (Rt.Return (currentState, version), fetched) ->
  (forall newState w2,
     Rt.StateComputation.computeNewState (Rt.StateComputation.new decider)
       (conditional currentState decider.(Rt.IDecider.initialState))
       command (after_fetch command fetched w) =
       (Rt.Returned newState, w2) ->
     w2.(Rt.store) = fetched
     /\ Rt.StateStoredLockingAggregate.handle
          (Rt.StateStoredLockingAggregate.new decider locking) command w =
        Rt.await (Rt.SaveCall newState version)
          (locking.(Rt.StateLockingRepository.save) newState version) w2)
  /\ (forall fuel newState w2,
        Rt.StateOrchestratingComputation.computeNewState fuel
          (Rt.StateOrchestratingComputation.new decider saga)
          (conditional currentState decider.(Rt.IDecider.initialState))
          command (after_fetch command fetched w) =
          (Rt.Returned newState, w2) ->
        w2.(Rt.store) = fetched
        /\ Rt.StateStoredOrchestratingLockingAggregate.handle fuel
             (Rt.StateStoredOrchestratingLockingAggregate.new decider
                locking saga) command w =
           Rt.await (Rt.SaveCall newState version)
             (locking.(Rt.StateLockingRepository.save) newState version) w2).
Proof.
  intros Hfetch. split.
  - intros newState w2 Hrun.
    rewrite (locking_handle_fetched _ _ Hfetch). split.
    + destruct (quiet_computeNewState (R := RL) (X := option V)
                  (Rt.StateComputation.new decider)
                  (conditional currentState
                     decider.(Rt.IDecider.initialState)) command
                  (after_fetch command fetched w))
        as (calls & _ & Hstore & _).
      rewrite Hrun in Hstore. exact Hstore.
    + unfold compute_and_save, Rt.bind. rewrite Hrun. reflexivity.
  - intros fuel newState w2 Hrun.
    rewrite (orchestrating_locking_handle_fetched fuel _ _ Hfetch). split.
    + destruct (quiet_orchestrating_computeNewState (R := RL)
                  (X := option V)
                  (Rt.StateOrchestratingComputation.new decider saga) fuel
                  (conditional currentState
                     decider.(Rt.IDecider.initialState)) command
                  (after_fetch command fetched w))
        as (calls & _ & Hstore & _).
      rewrite Hrun in Hstore. exact Hstore.
    + unfold compute_and_save, Rt.bind. rewrite Hrun. reflexivity.
Qed.

(** C4: when [fetchState] returns a state that is present and falsy, every
    aggregate computes from the decision unit's [initialState]. *)
Theorem handle_falsy_state_restarts (command : C) (s : S) :
  toBoolean s = false ->
  (forall (w : Rt.World Err R C S E unit) fetched,
     repository.(Rt.StateRepository.fetchState) command w.(Rt.store) =
       (Rt.Return (Some s), fetched) ->
     Rt.StateStoredAggregate.handle
       (Rt.StateStoredAggregate.new decider repository) command w =
     compute_and_save
       (Rt.StateComputation.computeNewState (Rt.StateComputation.new decider)
          decider.(Rt.IDecider.initialState) command)
       tt repository.(Rt.StateRepository.save)
       (after_fetch command fetched w)
     /\ forall fuel,
          Rt.StateStoredOrchestratingAggregate.handle fuel
            (Rt.StateStoredOrchestratingAggregate.new decider repository saga)
            command w =
          compute_and_save
            (Rt.StateOrchestratingComputation.computeNewState fuel
               (Rt.StateOrchestratingComputation.new decider saga)
               decider.(Rt.IDecider.initialState) command)
            tt repository.(Rt.StateRepository.save)
            (after_fetch command fetched w))
  /\ (forall (w : Rt.World Err RL C S E (option V)) version fetched,
        locking.(Rt.StateLockingRepository.fetchState) command w.(Rt.store) =
          (Rt.Return (Some s, version), fetched) ->
        Rt.StateStoredLockingAggregate.handle
          (Rt.StateStoredLockingAggregate.new decider locking) command w =
        compute_and_save
          (Rt.StateComputation.computeNewState
             (Rt.StateComputation.new decider)
             decider.(Rt.IDecider.initialState) command)
          version
          (fun newState =>
             locking.(Rt.StateLockingRepository.save) newState version)
          (after_fetch command fetched w)
        /\ forall fuel,
             Rt.StateStoredOrchestratingLockingAggregate.handle fuel
               (Rt.StateStoredOrchestratingLockingAggregate.new decider
                  locking saga) command w =
             compute_and_save
               (Rt.StateOrchestratingComputation.computeNewState fuel
                  (Rt.StateOrchestratingComputation.new decider saga)
                  decider.(Rt.IDecider.initialState) command)
               version
               (fun newState =>
                  locking.(Rt.StateLockingRepository.save) newState version)
               (after_fetch command fetched w)).
Proof.
  intros Hfalsy. split.
  - intros w fetched Hfetch. split; [|intros fuel].
    + rewrite (plain_handle_fetched _ _ Hfetch).
      rewrite conditional_falsy by exact Hfalsy. reflexivity.
    + rewrite (orchestrating_handle_fetched fuel _ _ Hfetch).
      rewrite conditional_falsy by exact Hfalsy. reflexivity.
  - intros w version fetched Hfetch. split; [|intros fuel].
    + rewrite (locking_handle_fetched _ _ Hfetch).
      rewrite conditional_falsy by exact Hfalsy. reflexivity.
    + rewrite (orchestrating_locking_handle_fetched fuel _ _ Hfetch).
      rewrite conditional_falsy by exact Hfalsy. reflexivity.
Qed.
End HandleFetched.

Lemma locking_handle_passes_version_witness :
  let decider := total_decider (Err := string) (Example.adder 0) in
  let w := Example.empty_world (E := Z) (X := option nat)
             (@None (Z * nat)) in
  let w2 :=
    snd (Rt.StateComputation.computeNewState
           (Rt.StateComputation.new decider) 0%Z 5%Z
           (after_fetch 5%Z None w)) in
  w2.(Rt.store) = None
  /\ Rt.StateStoredLockingAggregate.handle
       (Rt.StateStoredLockingAggregate.new decider Example.locking_memory)
       5%Z w =
     Rt.await (Rt.SaveCall 5%Z None)
       ((Example.locking_memory (C := Z)).(Rt.StateLockingRepository.save)
          5%Z None) w2.
Proof.
  intros decider w w2.
  destruct (@locking_handle_passes_version string (option (Z * nat)) Z Z Z
              nat _ decider (total_saga Example.silent)
              Example.locking_memory 5%Z w None None None eq_refl)
    as [Hplain _].
  apply (Hplain 5%Z w2). reflexivity.
Defined.

Lemma handle_falsy_state_restarts_witness :
  let decider := total_decider (Err := string) (Example.adder 10) in
  let w := Example.empty_world (E := Z) (X := unit) (Some 0%Z) in
  Rt.StateStoredAggregate.handle
    (Rt.StateStoredAggregate.new decider Example.memory) 3%Z w =
  compute_and_save
    (Rt.StateComputation.computeNewState (Rt.StateComputation.new decider)
       10%Z 3%Z)
    tt (Example.memory (C := Z)).(Rt.StateRepository.save)
    (after_fetch 3%Z (Some 0%Z) w).
Proof.
  intros decider w.
  destruct (@handle_falsy_state_restarts string (option Z)
              (option (Z * nat)) Z Z Z nat _ decider
              (total_saga Example.silent) Example.memory
              Example.locking_memory 3%Z 0%Z eq_refl)
    as [Hplain _].
  destruct (Hplain w (Some 0%Z) eq_refl) as [Hhandle _].
  exact Hhandle.
Defined.

(** The number 0, the empty string and [false] are present and falsy: the
    conditional of [handle] replaces each of them by the other operand. *)
Lemma falsy_values_are_replaced :
  (forall other : Z, conditional (Some 0%Z) other = other)
  /\ (forall other : string, conditional (Some ""%string) other = other)
  /\ (forall other : bool, conditional (Some false) other = other).
Proof. repeat split. Qed.

(** ** [handle] on the in-memory repository *)

Section HandleStart.
Context {Err R C S E : Type} `{ToBoolean S}.
Variable decider : Rt.IDecider.t Err C S E.
Variable repository : Rt.StateRepository.t Err R C S.

(** With no state fetched, [handle] computes from [initialState]; with a
    truthy state fetched, from that state. *)
Lemma handle_start_state (command : C) (w : Rt.World Err R C S E unit)
    (currentState : option S) (fetched : R) :
  repository.(Rt.StateRepository.fetchState) command w.(Rt.store) =
    (Rt.Return currentState, fetched) ->
  match currentState with
  | Some s => toBoolean s = true
  | None => True
  end ->
  Rt.StateStoredAggregate.handle
    (Rt.StateStoredAggregate.new decider repository) command w =
  compute_and_save
    (Rt.StateComputation.computeNewState (Rt.StateComputation.new decider)
       (match currentState with
        | Some s => s
        | None => decider.(Rt.IDecider.initialState)
        end) command)
    tt repository.(Rt.StateRepository.save)
    (after_fetch command fetched w).
Proof.
  intros Hfetch Htruthy. erewrite plain_handle_fetched by exact Hfetch.
  destruct currentState as [s|].
  - rewrite conditional_truthy by exact Htruthy. reflexivity.
  - reflexivity.
Qed.
End HandleStart.

(** The scenario of the specification: [decide(n, s) = [n]],
    [evolve(s, e) = s + e], [initialState = 0]; on the empty store
    [handle(5)] returns 5 and the next [handle(3)] returns 8. *)
Example handle_round_trip :
  let aggregate :=
    Rt.StateStoredAggregate.new
      (total_decider (Err := string) (Example.adder 0)) Example.memory in
  let first :=
    Rt.StateStoredAggregate.handle aggregate 5%Z (Example.empty_world None) in
  let second := Rt.StateStoredAggregate.handle aggregate 3%Z (snd first) in
  fst first = Rt.Returned 5%Z /\ fst second = Rt.Returned 8%Z.
Proof. split; reflexivity. Qed.

(** C3, at an input where the code departs from it: with
    [initialState = 10], the first [handle(-10)] on the empty store saves
    and returns 0; the second [handle(3)] fetches that 0 and returns 13,
    computed from [initialState], where the state computed from the stored
    state is 3. *)
Example handle_second_call_ignores_stored_zero :
  let decider := Example.adder 10 in
  let aggregate :=
    Rt.StateStoredAggregate.new (total_decider (Err := string) decider)
      Example.memory in
  let first :=
    Rt.StateStoredAggregate.handle aggregate (-10)%Z
      (Example.empty_world None) in
  let second := Rt.StateStoredAggregate.handle aggregate 3%Z (snd first) in
  fst first = Rt.Returned 0%Z
  /\ (snd first).(Rt.store) = Some 0%Z
  /\ fst second = Rt.Returned 13%Z
  /\ StateComputation.computeNewState (StateComputation.new decider)
       0%Z 3%Z = 3%Z
  /\ StateComputation.computeNewState (StateComputation.new decider)
       decider.(IDecider.initialState) 3%Z = 13%Z.
Proof. repeat split. Qed.

(** A failure of [evolve] reaches the caller of [handle] and nothing is
    saved. *)
Example handle_brittle_evolve :
  let aggregate :=
    Rt.StateStoredAggregate.new
      (Example.brittle 0%Z (fun (n : Z) (_ : Z) => [n])) Example.memory in
  Rt.StateStoredAggregate.handle aggregate 5%Z (Example.empty_world None) =
  (Rt.Thrown "evolve"%string,
   {| Rt.store := None;
      Rt.log :=
        [ {| Rt.call := Rt.FetchStateCall 5%Z; Rt.failure := None |};
          {| Rt.call := Rt.DecideCall 5%Z 0%Z; Rt.failure := None |};
          {| Rt.call := Rt.EvolveCall 0%Z 5%Z;
             Rt.failure := Some "evolve"%string |} ] |}).
Proof. reflexivity. Qed.

(** * Further properties of the cascade *)

Section LoopTermination.
Context {A Y : Type}.


Lemma thread_stuck (body : Y -> A -> option Y) (xs : list A) (x : A) :
  In x xs -> (forall y, body y x = None) ->
  forall y, Spec.thread body xs y = None.
Proof.
  intros Hin Hstuck. induction xs as [|x' xs IH]; intros y; simpl.
  - destruct Hin.
  - destruct Hin as [->|Hin].
    + rewrite Hstuck. reflexivity.
    + destruct (body y x'); [apply IH; exact Hin|reflexivity].
Qed.
End LoopTermination.

Section CascadeTermination.
Context {C S E : Type}.
Variable decider : IDecider.t C S E.
Variable saga : ISaga.t E C.

Let this := StateOrchestratingComputation.new decider saga.



(** X2: when, in every state, a command decides an event that is answered
    with that same command, the orchestrating [computeNewState] on it
    returns under no bound on the depth: nothing in the code stops the
    cycle. *)
Theorem cascade_self_trigger_diverges (c : C) :
  (forall s, exists e,
      In e (decider.(IDecider.decide) c s) /\ In c (saga.(ISaga.react) e)) ->
  forall fuel s,
    StateOrchestratingComputation.computeNewState fuel
      (StateOrchestratingComputation.new decider saga) s c = None.
Proof.
  intros Hloop. induction fuel as [|fuel IH]; intros s.
  - reflexivity.
  - rewrite orchestrating_unfold. cbn zeta.
    destruct (Hloop s) as (e & He & Hc).
    apply thread_stuck with (x := c).
    + apply in_flat_map. exists e. split; assumption.
    + exact IH.
Qed.
End CascadeTermination.


Lemma cascade_self_trigger_diverges_witness :
  StateOrchestratingComputation.computeNewState 5
    (StateOrchestratingComputation.new Example.counter Scenario.echo_saga)
    0%Z "inc"%string = None.
Proof.
  apply (cascade_self_trigger_diverges Example.counter Scenario.echo_saga
           "inc"%string).
  intros s. exists (Example.Incremented (s + 1)). split.
  - left. reflexivity.
  - left. reflexivity.
Defined.

(** X3: a command that decides no event ends the cascade at once: the
    orchestrating [computeNewState(s, c)] returns [s] after the one call to
    [decide], with no call to [evolve] or [react] and no nested call,
    whatever [evolve] and the routing unit are. *)
Theorem orchestrating_no_events_stops {C S E : Type}
    (decider : IDecider.t C S E) (saga : ISaga.t E C) (s : S) (c : C) :
  decider.(IDecider.decide) c s = [] ->
  (forall fuel,
     StateOrchestratingComputation.computeNewState (Datatypes.S fuel)
       (StateOrchestratingComputation.new decider saga) s c = Some s)
  /\ forall (Err R X : Type) (evolve' : S -> E -> Rt.completion Err S)
            (saga' : Rt.ISaga.t Err E C) (fuel : nat)
            (w : Rt.World Err R C S E X),
       Rt.StateOrchestratingComputation.computeNewState (Datatypes.S fuel)
         (Rt.StateOrchestratingComputation.new
            {| Rt.IDecider.decide := fun c s =>
                 Rt.Return (decider.(IDecider.decide) c s);
               Rt.IDecider.evolve := evolve';
               Rt.IDecider.initialState :=
                 decider.(IDecider.initialState) |}
            saga')
         s c w =
       (Rt.Returned s, Rt.record (Rt.DecideCall c s) None w).
Proof.
  intros Hnone. split.
  - intros fuel. rewrite orchestrating_unfold. cbn zeta.
    change (StateOrchestratingComputation.decider
              (StateOrchestratingComputation.new decider saga))
      with decider.
    rewrite Hnone. reflexivity.
  - intros Err R X evolve' saga' fuel w.
    cbn [Rt.StateOrchestratingComputation.computeNewState].
    unfold Rt.bind at 1, Rt.call_decide. simpl. rewrite Hnone. reflexivity.
Qed.

Lemma orchestrating_no_events_stops_witness :
  StateOrchestratingComputation.computeNewState 1
    (StateOrchestratingComputation.new Example.counter Scenario.echo_saga)
    7%Z "dec"%string = Some 7%Z
  /\ Rt.StateOrchestratingComputation.computeNewState 1
       (Rt.StateOrchestratingComputation.new
          (Example.brittle 0%Z Example.counter.(IDecider.decide))
          Scenario.throwing_saga)
       7%Z "dec"%string (Example.empty_world (X := unit) tt) =
     (Rt.Returned 7%Z,
      {| Rt.store := tt;
         Rt.log := [{| Rt.call := Rt.DecideCall "dec"%string 7%Z;
                       Rt.failure := None |}] |}).
Proof.
  destruct (orchestrating_no_events_stops Example.counter Scenario.echo_saga
              7%Z "dec"%string eq_refl) as [Hpure Hrun].
  split.
  - exact (Hpure 0).
  - exact (Hrun string unit unit (fun _ _ => Rt.Throw "evolve"%string)
             Scenario.throwing_saga 0 (Example.empty_world tt)).
Defined.

(** ** [react] runs on every decided event before any follow-up command *)

Section ReactFirst.
Context {Err R C S E X : Type}.
Variable decider : IDecider.t C S E.
Variable saga : Rt.ISaga.t Err E C.


End ReactFirst.


(** ** The cascade is a sequence of plain computations *)

Section DecideCalls.
Context {Err C S E X : Type}.
Implicit Types l : list (Rt.Entry Err C S E X).

Lemma decide_calls_app l l' :
  decide_calls (l ++ l') = decide_calls l ++ decide_calls l'.
Proof. apply flat_map_app. Qed.

Lemma decide_calls_evolve (evolve : S -> E -> S) (events : list E) :
  forall s,
    decide_calls
      (map (returned_call (Err := Err))
         (evolve_calls (C := C) (X := X) evolve s events)) = [].
Proof.
  induction events as [|e events IH]; intros s; simpl.
  - reflexivity.
  - apply IH.
Qed.

Lemma decide_calls_react (events : list E) :
  decide_calls
    (map (returned_call (Err := Err))
       (map (Rt.ReactCall (C := C) (S := S) (X := X)) events)) = [].
Proof. induction events as [|e events IH]; simpl; auto. Qed.
End DecideCalls.

Lemma sequential_app {C S : Type} (step : S -> C -> S)
    (trace trace' : list (C * S)) :
  forall s s1 s2,
    sequential step s trace s1 -> sequential step s1 trace' s2 ->
    sequential step s (trace ++ trace') s2.
Proof.
  intros s s1 s2 H1. induction H1 as [s|s c trace s1 H1 IH]; intros H2.
  - exact H2.
  - simpl. constructor. apply IH. exact H2.
Qed.

Section Replay.
Context {Err R C S E X : Type}.
Variable decider : IDecider.t C S E.
Variable saga : ISaga.t E C.
Abbreviation World := (Rt.World Err R C S E X).

Lemma total_flatMap_log (events : list E) :
  forall w : World,
    Rt.Array.flatMap (fun it => Rt.call_react (total_saga saga) it) events w
    = (Rt.Returned (flat_map saga.(ISaga.react) events),
       {| Rt.store := w.(Rt.store);
          Rt.log :=
            w.(Rt.log) ++ map returned_call (map Rt.ReactCall events) |}).
Proof.
  induction events as [|e events IH]; intros w.
  - simpl. rewrite app_nil_r. destruct w. reflexivity.
  - cbn [Rt.Array.flatMap]. unfold Rt.bind at 1.
    cbn [Rt.call_react Rt.invoke total_saga Rt.ISaga.react].
    unfold Rt.bind at 1. rewrite IH. simpl. rewrite <- app_assoc.
    reflexivity.
Qed.

Lemma forEach_sequential (step : S -> C -> S)
    (body : S -> C -> @Rt.M Err R C S E X S) :
  (forall st c (w : World) s' w',
      body st c w = (Rt.Returned s', w') ->
      exists trace,
        decide_calls w'.(Rt.log) =
          decide_calls w.(Rt.log) ++ (c, st) :: trace
        /\ sequential step st ((c, st) :: trace) s') ->
  forall commands st (w : World) s' w',
    Rt.Array.forEach commands body st w = (Rt.Returned s', w') ->
    exists trace,
      decide_calls w'.(Rt.log) = decide_calls w.(Rt.log) ++ trace
      /\ sequential step st trace s'.
Proof.
  intros Hbody. induction commands as [|c commands IH];
    intros st w s' w' Hrun.
  - simpl in Hrun. injection Hrun as <- <-. exists []. split.
    + symmetry. apply app_nil_r.
    + constructor.
  - cbn [Rt.Array.forEach] in Hrun. unfold Rt.bind in Hrun.
    destruct (body st c w) as [r w1] eqn:Hc.
    destruct r as [s1|err|]; try discriminate.
    destruct (Hbody _ _ _ _ _ Hc) as (trace1 & Hlog1 & Hseq1).
    destruct (IH _ _ _ _ Hrun) as (trace2 & Hlog2 & Hseq2).
    exists (((c, st) :: trace1) ++ trace2). split.
    + rewrite Hlog2, Hlog1. symmetry. apply app_assoc.
    + apply sequential_app with (s1 := s1); assumption.
Qed.

(** X4: with collaborators that return, the state that the orchestrating
    [computeNewState(s, c)] returns is the result of plain computations run
    one after the other: [decide] is called first with [c] on [s], and
    every later call to [decide] is on the state that the plain
    [computeNewState] gives for the call before it; the state returned is
    the one after the last call. *)
Theorem cascade_is_sequential (fuel : nat) (s : S) (c : C) (w : World)
    (s' : S) (w' : World) :
  Rt.StateOrchestratingComputation.computeNewState fuel
    (Rt.StateOrchestratingComputation.new
       (total_decider decider) (total_saga saga)) s c w
  = (Rt.Returned s', w') ->
  exists trace,
    decide_calls w'.(Rt.log) = decide_calls w.(Rt.log) ++ (c, s) :: trace
    /\ sequential
         (StateComputation.computeNewState (StateComputation.new decider))
         s ((c, s) :: trace) s'.
Proof.
  revert s c w s' w'.
  induction fuel as [|fuel IH]; intros s c w s' w' Hrun.
  - discriminate.
  - cbn [Rt.StateOrchestratingComputation.computeNewState] in Hrun.
    unfold Rt.bind at 1 in Hrun.
    cbn [Rt.call_decide Rt.invoke total_decider Rt.IDecider.decide
         Rt.StateOrchestratingComputation.decider
         Rt.StateOrchestratingComputation.new
         Rt.StateOrchestratingComputation.super
         Rt.StateOrchestratingComputation.saga
         Rt.StateComputation.new Rt.StateComputation.decider] in Hrun.
    unfold Rt.bind at 1, Rt.Array.reduce in Hrun.
    rewrite total_reduce_from_log in Hrun.
    unfold Rt.bind at 1 in Hrun. rewrite total_flatMap_log in Hrun.
    apply forEach_sequential
      with (step := StateComputation.computeNewState
                      (StateComputation.new decider)) in Hrun.
    + destruct Hrun as (trace & Hlog & Hseq). exists trace. split.
      * rewrite Hlog. simpl. rewrite !decide_calls_app.
        rewrite decide_calls_evolve, decide_calls_react. simpl.
        rewrite !app_nil_r, <- app_assoc. reflexivity.
      * constructor. rewrite computeNewState_unfold. exact Hseq.
    + intros st c0 w0 s0 w0' H0. apply (IH _ _ _ _ _ H0).
Qed.
End Replay.

Lemma cascade_is_sequential_witness :
  let w := Example.empty_world (Err := string) (X := unit) tt in
  let run :=
    Rt.StateOrchestratingComputation.computeNewState 3
      (Rt.StateOrchestratingComputation.new
         (total_decider Example.counter)
         (total_saga Example.counter_saga)) 0%Z "inc"%string w in
  exists trace,
    decide_calls (snd run).(Rt.log) =
      decide_calls w.(Rt.log) ++ ("inc"%string, 0%Z) :: trace
    /\ sequential
         (StateComputation.computeNewState
            (StateComputation.new Example.counter))
         0%Z (("inc"%string, 0%Z) :: trace) 3%Z.
Proof.
  intros w run.
  apply (@cascade_is_sequential string unit string Z Example.CounterEvent
           unit Example.counter Example.counter_saga 3 0%Z "inc"%string w
           3%Z (snd run)).
  reflexivity.
Defined.

(** ** An orchestrating aggregate whose routing unit never reacts *)

Section SilentSaga.
Context {Err R C S E X : Type}.
Variable decider : Rt.IDecider.t Err C S E.
Variable saga : Rt.ISaga.t Err E C.
Hypothesis silent : forall e, saga.(Rt.ISaga.react) e = Rt.Return [].
Abbreviation World := (Rt.World Err R C S E X).

Lemma silent_flatMap (events : list E) :
  forall w : World, exists w',
    Rt.Array.flatMap (fun it => Rt.call_react saga it) events w
    = (Rt.Returned [], w')
    /\ w'.(Rt.store) = w.(Rt.store).
Proof.
  induction events as [|e events IH]; intros w.
  - exists w. split; reflexivity.
  - cbn [Rt.Array.flatMap]. unfold Rt.bind at 1.
    unfold Rt.call_react at 1, Rt.invoke. rewrite silent.
    destruct (IH (Rt.record (Rt.ReactCall e) None w)) as (w' & Hrun & Hst).
    unfold Rt.bind at 1. rewrite Hrun. exists w'. split.
    + reflexivity.
    + rewrite Hst. reflexivity.
Qed.

Lemma silent_computeNewState (fuel : nat) (s : S) (c : C) (w : World) :
  fst (Rt.StateOrchestratingComputation.computeNewState (Datatypes.S fuel)
         (Rt.StateOrchestratingComputation.new decider saga) s c w) =
  fst (Rt.StateComputation.computeNewState
         (Rt.StateComputation.new decider) s c w).
Proof.
  cbn [Rt.StateOrchestratingComputation.computeNewState].
  unfold Rt.StateComputation.computeNewState.
  cbn [Rt.StateOrchestratingComputation.decider
       Rt.StateOrchestratingComputation.new
       Rt.StateOrchestratingComputation.super
       Rt.StateOrchestratingComputation.saga
       Rt.StateComputation.new Rt.StateComputation.decider].
  unfold Rt.bind.
  destruct (Rt.call_decide decider c s w) as [r1 w1].
  destruct r1 as [events|err|]; try reflexivity.
  destruct (Rt.Array.reduce _ events s w1) as [r2 w2].
  destruct r2 as [newState|err|]; try reflexivity.
  destruct (silent_flatMap events w2) as (w3 & Hrun & _). rewrite Hrun.
  reflexivity.
Qed.

(** Two runs agree when they end the same way and leave the same store. *)
Lemma compute_and_save_agree {A : Type}
    (compute compute' : @Rt.M Err R C S E X S) (x : X)
    (save : S -> R -> Rt.completion Err A * R) (w : World) :
  quiet compute -> quiet compute' ->
  fst (compute w) = fst (compute' w) ->
  fst (compute_and_save compute x save w) =
    fst (compute_and_save compute' x save w)
  /\ (snd (compute_and_save compute x save w)).(Rt.store) =
       (snd (compute_and_save compute' x save w)).(Rt.store).
Proof.
  intros Hq Hq' Hfst. unfold compute_and_save, Rt.bind.
  destruct (Hq w) as (calls & _ & Hst & _).
  destruct (Hq' w) as (calls' & _ & Hst' & _).
  destruct (compute w) as [r w1]. destruct (compute' w) as [r' w1'].
  simpl in Hfst, Hst, Hst'. subst r'.
  destruct r as [newState|err|]; simpl; try (split; congruence).
  unfold Rt.await. rewrite Hst, Hst'.
  destruct (save newState (Rt.store w)) as [r2 st2].
  destruct r2; simpl; split; reflexivity.
Qed.
End SilentSaga.

Section SilentSagaHandle.
Context {Err R RL C S E V : Type} `{ToBoolean S}.
Variable decider : Rt.IDecider.t Err C S E.
Variable saga : Rt.ISaga.t Err E C.
Variable repository : Rt.StateRepository.t Err R C S.
Variable locking : Rt.StateLockingRepository.t Err RL C S V.

(** X6: with a routing unit whose [react] returns the empty sequence on
    every event, [handle] of an orchestrating aggregate ends as [handle] of
    the plain aggregate on the same decision unit and repository does, with
    the same store, also when a collaborator throws; and so for the locking
    aggregates. *)
Theorem orchestrating_handle_silent_saga (fuel : nat) (command : C) :
  (forall e, saga.(Rt.ISaga.react) e = Rt.Return []) ->
  (forall w,
     let orchestrating :=
       Rt.StateStoredOrchestratingAggregate.handle (Datatypes.S fuel)
         (Rt.StateStoredOrchestratingAggregate.new decider repository saga)
         command w in
     let plain :=
       Rt.StateStoredAggregate.handle
         (Rt.StateStoredAggregate.new decider repository) command w in
     fst orchestrating = fst plain
     /\ (snd orchestrating).(Rt.store) = (snd plain).(Rt.store))
  /\ (forall w,
        let orchestrating :=
          Rt.StateStoredOrchestratingLockingAggregate.handle
            (Datatypes.S fuel)
            (Rt.StateStoredOrchestratingLockingAggregate.new decider locking
               saga) command w in
        let plain :=
          Rt.StateStoredLockingAggregate.handle
            (Rt.StateStoredLockingAggregate.new decider locking) command w in
        fst orchestrating = fst plain
        /\ (snd orchestrating).(Rt.store) = (snd plain).(Rt.store)).
Proof.
  intros Hsilent. split; intros w orchestrating plain;
    subst orchestrating plain.
  - destruct (repository.(Rt.StateRepository.fetchState) command
                w.(Rt.store)) as [r fetched] eqn:Hfetch.
    destruct r as [currentState|err].
    + erewrite orchestrating_handle_fetched by exact Hfetch.
      erewrite plain_handle_fetched by exact Hfetch.
      apply compute_and_save_agree.
      * apply quiet_orchestrating_computeNewState.
      * apply quiet_computeNewState.
      * apply silent_computeNewState. exact Hsilent.
    + unfold Rt.StateStoredOrchestratingAggregate.handle,
        Rt.StateStoredAggregate.handle, Rt.bind.
      cbn [Rt.StateStoredOrchestratingAggregate.stateRepository
           Rt.StateStoredOrchestratingAggregate.new
           Rt.StateStoredAggregate.stateRepository
           Rt.StateStoredAggregate.new].
      rewrite !(await_throws _ _ _ Hfetch). split; reflexivity.
  - destruct (locking.(Rt.StateLockingRepository.fetchState) command
                w.(Rt.store)) as [r fetched] eqn:Hfetch.
    destruct r as [[currentState version]|err].
    + erewrite orchestrating_locking_handle_fetched by exact Hfetch.
      erewrite locking_handle_fetched by exact Hfetch.
      apply compute_and_save_agree.
      * apply quiet_orchestrating_computeNewState.
      * apply quiet_computeNewState.
      * apply silent_computeNewState. exact Hsilent.
    + unfold Rt.StateStoredOrchestratingLockingAggregate.handle,
        Rt.StateStoredLockingAggregate.handle, Rt.bind.
      cbn [Rt.StateStoredOrchestratingLockingAggregate.stateRepository
           Rt.StateStoredOrchestratingLockingAggregate.new
           Rt.StateStoredLockingAggregate.stateRepository
           Rt.StateStoredLockingAggregate.new].
      rewrite !(await_throws _ _ _ Hfetch). split; reflexivity.
Qed.
End SilentSagaHandle.

Lemma orchestrating_handle_silent_saga_witness :
  let decider := Example.brittle 0%Z (fun (n : Z) (_ : Z) => [n]) in
  let w := Example.empty_world (E := Z) (X := unit) (@None Z) in
  fst (Rt.StateStoredOrchestratingAggregate.handle 1
         (Rt.StateStoredOrchestratingAggregate.new decider Example.memory
            (total_saga Example.silent)) 5%Z w) =
  fst (Rt.StateStoredAggregate.handle
         (Rt.StateStoredAggregate.new decider Example.memory) 5%Z w).
Proof.
  intros decider w.
  destruct (@orchestrating_handle_silent_saga string (option Z)
              (option (Z * nat)) Z Z Z nat _ decider
              (total_saga Example.silent) Example.memory
              Example.locking_memory 0 5%Z (fun e => eq_refl))
    as [Hplain _].
  exact (proj1 (Hplain w)).
Defined.

(** ** The repository calls of [handle] *)

Section NoRepositoryCall.
Context {Err R C S E X : Type}.
Abbreviation M := (@Rt.M Err R C S E X).

Lemma repository_calls_app (l l' : list (Rt.Entry Err C S E X)) :
  repository_calls (l ++ l') = repository_calls l ++ repository_calls l'.
Proof. apply filter_app. Qed.

Lemma no_repository_call_ret {A : Type} (a : A) :
  no_repository_call (Rt.ret a : M A).
Proof. intros w. exists []. simpl. rewrite app_nil_r. split; reflexivity. Qed.

Lemma no_repository_call_outOfFuel {A : Type} :
  no_repository_call (Rt.outOfFuel : M A).
Proof. intros w. exists []. simpl. rewrite app_nil_r. split; reflexivity. Qed.

Lemma no_repository_call_invoke {A : Type} (c : Rt.Call C S E X)
    (r : Rt.completion Err A) :
  (forall f : option Err,
     is_repository_call {| Rt.call := c; Rt.failure := f |} = false) ->
  no_repository_call (Rt.invoke c r : M A).
Proof.
  intros Hc w. unfold Rt.invoke. destruct r as [a|err]; simpl.
  - exists [{| Rt.call := c; Rt.failure := None |}]. split;
      [reflexivity|]. unfold repository_calls. simpl. rewrite Hc.
    reflexivity.
  - exists [{| Rt.call := c; Rt.failure := Some err |}]. split;
      [reflexivity|]. unfold repository_calls. simpl. rewrite Hc.
    reflexivity.
Qed.

Lemma no_repository_call_bind {A B : Type} (m : M A) (k : A -> M B) :
  no_repository_call m -> (forall a, no_repository_call (k a)) ->
  no_repository_call (Rt.bind m k).
Proof.
  intros Hm Hk w. unfold Rt.bind.
  destruct (Hm w) as (calls1 & Hlog1 & Hnone1).
  destruct (m w) as [r1 w1]. simpl in Hlog1.
  destruct r1 as [a|err|].
  - destruct (Hk a w1) as (calls2 & Hlog2 & Hnone2).
    exists (calls1 ++ calls2). split.
    + rewrite Hlog2, Hlog1. symmetry. apply app_assoc.
    + rewrite repository_calls_app, Hnone1, Hnone2. reflexivity.
  - exists calls1. split; assumption.
  - exists calls1. split; assumption.
Qed.

Lemma no_repository_call_reduce_from {A B : Type}
    (callbackfn : B -> A -> nat -> list A -> M B) (arr rest : list A) :
  (forall acc x k, no_repository_call (callbackfn acc x k arr)) ->
  forall k acc,
    no_repository_call (Rt.Array.reduce_from callbackfn arr k rest acc).
Proof.
  intros Hcb. induction rest as [|x rest IH]; intros k acc; simpl.
  - apply no_repository_call_ret.
  - apply no_repository_call_bind; [apply Hcb|]. intros acc'. apply IH.
Qed.

Lemma no_repository_call_flatMap {A B : Type} (callback : A -> M (list B))
    (arr : list A) :
  (forall x, no_repository_call (callback x)) ->
  no_repository_call (Rt.Array.flatMap callback arr).
Proof.
  intros Hcb. induction arr as [|x arr IH]; simpl.
  - apply no_repository_call_ret.
  - apply no_repository_call_bind; [apply Hcb|]. intros ys.
    apply no_repository_call_bind; [apply IH|]. intros zs.
    apply no_repository_call_ret.
Qed.

Lemma no_repository_call_forEach {A Y : Type} (body : Y -> A -> M Y)
    (arr : list A) :
  (forall y c, no_repository_call (body y c)) ->
  forall y, no_repository_call (Rt.Array.forEach arr body y).
Proof.
  intros Hbody. induction arr as [|c arr IH]; intros y; simpl.
  - apply no_repository_call_ret.
  - apply no_repository_call_bind; [apply Hbody|]. intros y'. apply IH.
Qed.

Lemma no_repository_call_computeNewState
    (this : Rt.StateComputation.t Err C S E) (s : S) (c : C) :
  no_repository_call (Rt.StateComputation.computeNewState this s c : M S).
Proof.
  unfold Rt.StateComputation.computeNewState.
  apply no_repository_call_bind.
  - apply no_repository_call_invoke. reflexivity.
  - intros events. apply no_repository_call_reduce_from.
    intros acc x k. apply no_repository_call_invoke. reflexivity.
Qed.

Lemma no_repository_call_orchestrating
    (this : Rt.StateOrchestratingComputation.t Err C S E) :
  forall (fuel : nat) (s : S) (c : C),
    no_repository_call
      (Rt.StateOrchestratingComputation.computeNewState fuel this s c : M S).
Proof.
  induction fuel as [|fuel IH]; intros s c; simpl.
  - apply no_repository_call_outOfFuel.
  - apply no_repository_call_bind.
    { apply no_repository_call_invoke. reflexivity. }
    intros events. apply no_repository_call_bind.
    { apply no_repository_call_reduce_from. intros acc x k.
      apply no_repository_call_invoke. reflexivity. }
    intros newState. apply no_repository_call_bind.
    { apply no_repository_call_flatMap. intros x.
      apply no_repository_call_invoke. reflexivity. }
    intros commands. apply no_repository_call_forEach.
    intros y c'. apply IH.
Qed.

Lemma handle_one_fetch {F A : Type} (command : C)
    (fetch : R -> Rt.completion Err F * R) (k : F -> M A) :
  (forall f, exists compute x save,
      no_repository_call compute
      /\ forall w, k f w = compute_and_save compute x save w) ->
  forall w, exists calls,
    (snd (Rt.bind (Rt.await (Rt.FetchStateCall command) fetch) k w)).(Rt.log)
      = w.(Rt.log) ++ calls
    /\ one_fetch_then_save command calls.
Proof.
  intros Hk w. unfold Rt.bind at 1, Rt.await at 1.
  destruct (fetch w.(Rt.store)) as [r st1].
  destruct r as [f|err]; cbn [Rt.invoke].
  - destruct (Hk f) as (compute & x & save & Hq & Heq). rewrite Heq.
    unfold compute_and_save, Rt.bind.
    set (w1 := Rt.record (Rt.FetchStateCall command) None
                 {| Rt.store := st1; Rt.log := Rt.log w |}).
    destruct (Hq w1) as (calls & Hlog & Hnone).
    destruct (compute w1) as [r2 w2]. simpl in Hlog.
    set (fetched := {| Rt.call := Rt.FetchStateCall command;
                       Rt.failure := @None Err |}
                    : Rt.Entry Err C S E X).
    assert (Hquiet : repository_calls ([fetched] ++ calls) = [fetched]).
    { rewrite repository_calls_app, Hnone. reflexivity. }
    destruct r2 as [newState|err|].
    + unfold Rt.await. destruct (save newState (Rt.store w2)) as [r3 st2].
      set (failure := match r3 with
                      | Rt.Return _ => None
                      | Rt.Throw err => Some err
                      end).
      set (saved := {| Rt.call := Rt.SaveCall newState x;
                       Rt.failure := failure |}
                    : Rt.Entry Err C S E X).
      exists (([fetched] ++ calls) ++ [saved]). split.
      * subst saved failure. destruct r3; simpl; rewrite Hlog; subst w1;
          simpl; rewrite <- !app_assoc; reflexivity.
      * exists fetched. split; [reflexivity|]. right. exists saved.
        split; [reflexivity|].
        rewrite repository_calls_app, Hquiet. reflexivity.
    + exists ([fetched] ++ calls). split.
      * simpl. rewrite Hlog. subst w1. simpl. rewrite <- app_assoc.
        reflexivity.
      * exists fetched. split; [reflexivity|]. left. exact Hquiet.
    + exists ([fetched] ++ calls). split.
      * simpl. rewrite Hlog. subst w1. simpl. rewrite <- app_assoc.
        reflexivity.
      * exists fetched. split; [reflexivity|]. left. exact Hquiet.
  - exists [{| Rt.call := Rt.FetchStateCall command;
               Rt.failure := Some err |}]. split.
    + reflexivity.
    + exists {| Rt.call := Rt.FetchStateCall command;
                Rt.failure := Some err |}.
      split; [reflexivity|]. left. reflexivity.
Qed.
End NoRepositoryCall.

Section HandleRepositoryCalls.
Context {Err R RL C S E V : Type} `{ToBoolean S}.
Variable decider : Rt.IDecider.t Err C S E.
Variable saga : Rt.ISaga.t Err E C.
Variable repository : Rt.StateRepository.t Err R C S.
Variable locking : Rt.StateLockingRepository.t Err RL C S V.

(** X7: the repository calls of every run of [handle(command)] are one
    [fetchState(command)], first, and then at most one [save]: the
    computation, with all the follow-up commands of an orchestrating
    aggregate, calls no repository, so no follow-up command is fetched
    for. *)
Theorem handle_fetches_once (fuel : nat) (command : C) :
  (forall w, exists calls,
     (snd (Rt.StateStoredAggregate.handle
             (Rt.StateStoredAggregate.new decider repository) command w))
       .(Rt.log) = w.(Rt.log) ++ calls
     /\ one_fetch_then_save command calls)
  /\ (forall w, exists calls,
        (snd (Rt.StateStoredLockingAggregate.handle
                (Rt.StateStoredLockingAggregate.new decider locking)
                command w)).(Rt.log) = w.(Rt.log) ++ calls
        /\ one_fetch_then_save command calls)
  /\ (forall w, exists calls,
        (snd (Rt.StateStoredOrchestratingAggregate.handle fuel
                (Rt.StateStoredOrchestratingAggregate.new decider repository
                   saga) command w)).(Rt.log) = w.(Rt.log) ++ calls
        /\ one_fetch_then_save command calls)
  /\ (forall w, exists calls,
        (snd (Rt.StateStoredOrchestratingLockingAggregate.handle fuel
                (Rt.StateStoredOrchestratingLockingAggregate.new decider
                   locking saga) command w)).(Rt.log) = w.(Rt.log) ++ calls
        /\ one_fetch_then_save command calls).
Proof.
  repeat split; intros w.
  - apply handle_one_fetch. intros currentState.
    eexists _, tt, _. split.
    + apply no_repository_call_computeNewState.
    + intros w'. reflexivity.
  - apply handle_one_fetch. intros [currentState version].
    eexists _, version, (fun newState => _). split.
    + apply no_repository_call_computeNewState.
    + intros w'. reflexivity.
  - apply handle_one_fetch. intros currentState.
    eexists _, tt, _. split.
    + apply no_repository_call_orchestrating.
    + intros w'. reflexivity.
  - apply handle_one_fetch. intros [currentState version].
    eexists _, version, (fun newState => _). split.
    + apply no_repository_call_orchestrating.
    + intros w'. reflexivity.
Qed.
End HandleRepositoryCalls.

(** ** Successive calls of [handle] on a repository that keeps what it saves *)

Section Replayed.
Context {Err R C S E : Type} `{ToBoolean S}.
Variable decider : IDecider.t C S E.
Variable repository : Rt.StateRepository.t Err R C S.
Variable content : R -> option S.

Hypothesis fetch_reads : forall c r,
  repository.(Rt.StateRepository.fetchState) c r = (Rt.Return (content r), r).
Hypothesis save_writes : forall s r, exists r',
  repository.(Rt.StateRepository.save) s r = (Rt.Return s, r')
  /\ content r' = Some s.
Hypothesis truthy : forall s : S, toBoolean s = true.

Let aggregate :=
  Rt.StateStoredAggregate.new (total_decider decider) repository.
Let plain :=
  StateComputation.computeNewState (StateComputation.new decider).
Let start (r : R) : S :=
  match content r with
  | Some s => s
  | None => decider.(IDecider.initialState)
  end.


End Replayed.


(** ** [handle] of a command that decides nothing *)

Section NoEventsHandle.
Context {Err R RL C S E V : Type} `{ToBoolean S}.
Variable decider : Rt.IDecider.t Err C S E.
Variable saga : Rt.ISaga.t Err E C.
Variable repository : Rt.StateRepository.t Err R C S.
Variable locking : Rt.StateLockingRepository.t Err RL C S V.

(** X9: [handle] saves also when the command decides no event: it then
    calls [save] with the state it started from, the fetched state or, with
    none (or a falsy one) fetched, [initialState], and for a locking
    aggregate with the fetched version. *)
Theorem handle_no_events_saves_start (fuel : nat) (command : C)
    (currentState : option S) :
  let start := conditional currentState decider.(Rt.IDecider.initialState) in
  decider.(Rt.IDecider.decide) command start = Rt.Return [] ->
  (forall (w : Rt.World Err R C S E unit) fetched,
     repository.(Rt.StateRepository.fetchState) command w.(Rt.store) =
       (Rt.Return currentState, fetched) ->
     let decided :=
       Rt.record (Rt.DecideCall command start) None
         (after_fetch command fetched w) in
     Rt.StateStoredAggregate.handle
       (Rt.StateStoredAggregate.new decider repository) command w =
       Rt.await (Rt.SaveCall start tt)
         (repository.(Rt.StateRepository.save) start) decided
     /\ Rt.StateStoredOrchestratingAggregate.handle (Datatypes.S fuel)
          (Rt.StateStoredOrchestratingAggregate.new decider repository saga)
          command w =
        Rt.await (Rt.SaveCall start tt)
          (repository.(Rt.StateRepository.save) start) decided)
  /\ (forall (w : Rt.World Err RL C S E (option V)) version fetched,
        locking.(Rt.StateLockingRepository.fetchState) command w.(Rt.store) =
          (Rt.Return (currentState, version), fetched) ->
        let decided :=
          Rt.record (Rt.DecideCall command start) None
            (after_fetch command fetched w) in
        Rt.StateStoredLockingAggregate.handle
          (Rt.StateStoredLockingAggregate.new decider locking) command w =
          Rt.await (Rt.SaveCall start version)
            (locking.(Rt.StateLockingRepository.save) start version) decided
        /\ Rt.StateStoredOrchestratingLockingAggregate.handle
             (Datatypes.S fuel)
             (Rt.StateStoredOrchestratingLockingAggregate.new decider locking
                saga) command w =
           Rt.await (Rt.SaveCall start version)
             (locking.(Rt.StateLockingRepository.save) start version)
             decided).
Proof.
  intros start Hnone. subst start. split.
  - intros w fetched Hfetch decided. subst decided. split.
    + erewrite plain_handle_fetched by exact Hfetch.
      unfold compute_and_save, Rt.StateComputation.computeNewState, Rt.bind,
        Rt.call_decide, Rt.invoke.
      cbn [Rt.StateComputation.new Rt.StateComputation.decider].
      rewrite Hnone. reflexivity.
    + erewrite orchestrating_handle_fetched by exact Hfetch.
      unfold compute_and_save.
      cbn [Rt.StateOrchestratingComputation.computeNewState].
      unfold Rt.bind, Rt.call_decide, Rt.invoke.
      cbn [Rt.StateOrchestratingComputation.decider
           Rt.StateOrchestratingComputation.new
           Rt.StateOrchestratingComputation.super
           Rt.StateComputation.new Rt.StateComputation.decider].
      rewrite Hnone. reflexivity.
  - intros w version fetched Hfetch decided. subst decided. split.
    + erewrite locking_handle_fetched by exact Hfetch.
      unfold compute_and_save, Rt.StateComputation.computeNewState, Rt.bind,
        Rt.call_decide, Rt.invoke.
      cbn [Rt.StateComputation.new Rt.StateComputation.decider].
      rewrite Hnone. reflexivity.
    + erewrite orchestrating_locking_handle_fetched by exact Hfetch.
      unfold compute_and_save.
      cbn [Rt.StateOrchestratingComputation.computeNewState].
      unfold Rt.bind, Rt.call_decide, Rt.invoke.
      cbn [Rt.StateOrchestratingComputation.decider
           Rt.StateOrchestratingComputation.new
           Rt.StateOrchestratingComputation.super
           Rt.StateComputation.new Rt.StateComputation.decider].
      rewrite Hnone. reflexivity.
Qed.
End NoEventsHandle.

Lemma handle_no_events_saves_start_witness :
  let decider := total_decider (Err := string) Example.counter in
  let w := Example.empty_world (E := Example.CounterEvent) (X := unit)
             (@None Z) in
  Rt.StateStoredAggregate.handle
    (Rt.StateStoredAggregate.new decider Example.memory) "dec"%string w =
  (Rt.Returned 0%Z,
   {| Rt.store := Some 0%Z;
      Rt.log :=
        map returned_call
          [ Rt.FetchStateCall "dec"%string;
            Rt.DecideCall "dec"%string 0%Z;
            Rt.SaveCall 0%Z tt ] |}).
Proof.
  intros decider w.
  destruct (@handle_no_events_saves_start string (option Z)
              (option (Z * nat)) string Z Example.CounterEvent nat _ decider
              (total_saga Example.counter_saga) Example.memory
              Example.locking_memory 0 "dec"%string None eq_refl)
    as [Hplain _].
  destruct (Hplain w None eq_refl) as [Hhandle _].
  rewrite Hhandle. reflexivity.
Defined.

(** * The receiver of [evolve] *)

Section Receiver.
Context {Err R C S E X : Type}.
Abbreviation M := (@Rt.M (Js.error Err) R C S E X).
Abbreviation World := (Rt.World (Js.error Err) R C S E X).

Lemma forEach_ext {A Y : Type} (body body' : Y -> A -> M Y) (arr : list A) :
  (forall y c w, body y c w = body' y c w) ->
  forall y w, Rt.Array.forEach arr body y w = Rt.Array.forEach arr body' y w.
Proof.
  intros Hext. induction arr as [|c arr IH]; intros y w; simpl.
  - reflexivity.
  - unfold Rt.bind. rewrite Hext. destruct (body' y c w) as [r w'].
    destruct r; auto.
Qed.

(** For a decision unit given as functions the receiver makes no
    difference: the computation is the one of the run-time layer. *)
Lemma functions_computeNewState
    (decider : Rt.IDecider.t (Js.error Err) C S E) (s : S) (c : C)
    (w : World) :
  Js.StateComputation.computeNewState
    (Js.StateComputation.new (Js.of_functions decider)) s c w =
  Rt.StateComputation.computeNewState (Rt.StateComputation.new decider)
    s c w.
Proof. reflexivity. Qed.

Lemma functions_orchestrating_computeNewState
    (decider : Rt.IDecider.t (Js.error Err) C S E)
    (saga : Rt.ISaga.t (Js.error Err) E C) :
  forall (fuel : nat) (s : S) (c : C) (w : World),
    Js.StateOrchestratingComputation.computeNewState fuel
      (Js.StateOrchestratingComputation.new (Js.of_functions decider)
         (Js.saga_of_function saga)) s c w =
    Rt.StateOrchestratingComputation.computeNewState fuel
      (Rt.StateOrchestratingComputation.new decider saga) s c w.
Proof.
  induction fuel as [|fuel IH]; intros s c w.
  - reflexivity.
  - cbn [Js.StateOrchestratingComputation.computeNewState
         Rt.StateOrchestratingComputation.computeNewState].
    unfold Rt.bind at 1 4.
    change (Rt.invoke (Rt.DecideCall c s)
              (Js.IDecider.decide
                 (Js.StateOrchestratingComputation.decider
                    (Js.StateOrchestratingComputation.new
                       (Js.of_functions decider)
                       (Js.saga_of_function saga)))
                 Js.Holder c s) w)
      with (Rt.call_decide
              (Rt.StateOrchestratingComputation.decider
                 (Rt.StateOrchestratingComputation.new decider saga))
              c s w).
    destruct (Rt.call_decide _ c s w) as [r1 w1].
    destruct r1 as [events|err|]; try reflexivity.
    unfold Rt.bind at 1 3.
    change (Rt.Array.reduce
              (Rt.as_reducer
                 (fun s0 e =>
                    Rt.invoke (Rt.EvolveCall s0 e)
                      (Js.IDecider.evolve
                         (Js.StateOrchestratingComputation.decider
                            (Js.StateOrchestratingComputation.new
                               (Js.of_functions decider)
                               (Js.saga_of_function saga)))
                         Js.Undefined s0 e)))
              events s w1)
      with (Rt.Array.reduce
              (Rt.as_reducer
                 (Rt.call_evolve
                    (Rt.StateOrchestratingComputation.decider
                       (Rt.StateOrchestratingComputation.new decider saga))))
              events s w1).
    destruct (Rt.Array.reduce _ events s w1) as [r2 w2].
    destruct r2 as [newState|err|]; try reflexivity.
    unfold Rt.bind.
    change (Rt.Array.flatMap
              (fun it =>
                 Rt.invoke (Rt.ReactCall it)
                   (Js.ISaga.react
                      (Js.StateOrchestratingComputation.saga
                         (Js.StateOrchestratingComputation.new
                            (Js.of_functions decider)
                            (Js.saga_of_function saga)))
                      Js.Holder it))
              events w2)
      with (Rt.Array.flatMap
              (fun it =>
                 Rt.call_react
                   (Rt.StateOrchestratingComputation.saga
                      (Rt.StateOrchestratingComputation.new decider saga))
                   it)
              events w2).
    destruct (Rt.Array.flatMap _ events w2) as [r3 w3].
    destruct r3 as [commands|err|]; try reflexivity.
    apply forEach_ext. intros y c' w'. apply IH.
Qed.

(** When the first call of [evolve] with [this] undefined throws, the
    computation throws the same after the calls to [decide] and to
    [evolve] on the first event. *)
Lemma detached_evolve_throws (this : Js.StateComputation.t Err C S E)
    (s : S) (c : C) (e : E) (events : list E) (err : Js.error Err)
    (w : World) :
  this.(Js.StateComputation.decider).(Js.IDecider.decide) Js.Holder c s =
    Rt.Return (e :: events) ->
  this.(Js.StateComputation.decider).(Js.IDecider.evolve) Js.Undefined s e =
    Rt.Throw err ->
  Js.StateComputation.computeNewState this s c w =
  (Rt.Thrown err,
   {| Rt.store := w.(Rt.store);
      Rt.log :=
        w.(Rt.log)
        ++ [ {| Rt.call := Rt.DecideCall c s; Rt.failure := None |};
             {| Rt.call := Rt.EvolveCall s e; Rt.failure := Some err |} ] |}).
Proof.
  intros Hdecide Hevolve.
  unfold Js.StateComputation.computeNewState, Rt.bind at 1.
  rewrite Hdecide. cbn [Rt.invoke].
  unfold Rt.Array.reduce. cbn [Rt.Array.reduce_from].
  unfold Rt.bind, Rt.as_reducer at 1. rewrite Hevolve. simpl.
  unfold Rt.record. simpl. rewrite <- app_assoc. reflexivity.
Qed.

(** So it is for every aggregate used as the decision unit of another one,
    on every command that decides an event. *)
Lemma nested_aggregate_throws (inner : Js.StateComputation.t Err C S E)
    (s : S) (c : C) (e : E) (events : list E) (w : World) :
  inner.(Js.StateComputation.decider).(Js.IDecider.decide) Js.Holder c s =
    Rt.Return (e :: events) ->
  fst (Js.StateComputation.computeNewState
         (Js.StateComputation.new (Js.StateComputation.as_decider inner))
         s c w) = Rt.Thrown Js.TypeError.
Proof.
  intros Hdecide.
  rewrite detached_evolve_throws
    with (e := e) (events := events) (err := Js.TypeError).
  - reflexivity.
  - exact Hdecide.
  - reflexivity.
Qed.
End Receiver.

(** C1, at an input where the code departs from it: [outer] has the
    aggregate [inner] as its decision unit.  As methods of [inner],
    [decide(5, 0)] returns [[5]] and [evolve(0, 5)] returns 5, so the fold
    of the claim is 5, and [inner] itself computes 5; but
    [outer.computeNewState(0, 5)] hands [inner.evolve] to [reduce], the
    call reads [this.decider] with [this] undefined, and the computation
    throws a [TypeError]. *)
Example computeNewState_detached_evolve_throws :
  let w := Example.empty_world (Err := Js.error string) (E := Z)
             (X := unit) tt in
  let decision_unit := Js.StateComputation.as_decider Nested.inner in
  decision_unit.(Js.IDecider.decide) Js.Holder 5%Z 0%Z = Rt.Return [5%Z]
  /\ decision_unit.(Js.IDecider.evolve) Js.Holder 0%Z 5%Z = Rt.Return 5%Z
  /\ fst (Js.StateComputation.computeNewState Nested.inner 0%Z 5%Z w) =
     Rt.Returned 5%Z
  /\ Js.StateComputation.computeNewState Nested.outer 0%Z 5%Z w =
     (Rt.Thrown Js.TypeError,
      {| Rt.store := tt;
         Rt.log :=
           [ {| Rt.call := Rt.DecideCall 5%Z 0%Z; Rt.failure := None |};
             {| Rt.call := Rt.EvolveCall 0%Z 5%Z;
                Rt.failure := Some Js.TypeError |} ] |}).
Proof. repeat split. Qed.

(** C2, at an input where the code departs from it: the orchestrating
    computation on the same decision unit, with a routing unit that never
    reacts.  The cascade of the claim ends in 5 after the fold of the one
    event; the code throws a [TypeError] in that fold, at every depth of
    at least one call, for the same detached [evolve]. *)
Example orchestrating_detached_evolve_throws :
  let w := Example.empty_world (Err := Js.error string) (E := Z)
             (X := unit) tt in
  Spec.computeNewState (Example.adder 0) Example.silent 1 0%Z 5%Z = Some 5%Z
  /\ forall fuel,
       Js.StateOrchestratingComputation.computeNewState (Datatypes.S fuel)
         Nested.outer_orchestrating 0%Z 5%Z w =
       (Rt.Thrown Js.TypeError,
        {| Rt.store := tt;
           Rt.log :=
             [ {| Rt.call := Rt.DecideCall 5%Z 0%Z; Rt.failure := None |};
               {| Rt.call := Rt.EvolveCall 0%Z 5%Z;
                  Rt.failure := Some Js.TypeError |} ] |}).
Proof.
  split.
  - reflexivity.
  - intros fuel. reflexivity.
Qed.
